(** * The shopping cart of the OctoCAT Supply frontend

    A shallow embedding of [frontend/src/context/CartContext.tsx]: the
    [CartItem] records, the derived totals computed on every render, the
    four state updaters ([addItem], [removeItem], [updateQuantity],
    [clearCart]) and the two effects that load the cart from and save it
    to [localStorage].

    JavaScript numbers are IEEE-754 binary64 values; they are modelled by
    Rocq's primitive floats, which are the same format, so that [===],
    [<=], [>=], [+], [*], [-] and the truthiness test of the source keep
    their meaning on NaN, on the two zeros and under rounding. *)

From Stdlib Require Import ZArith Bool List String Ascii Floats Lia.
From stdpp Require Import gmap strings.
Import ListNotations.

#[local] Set Warnings "-inexact-float".

(** ** JavaScript numbers *)

Module JSNumber.

Definition number : Type := float.

(** [a === b] on numbers: false as soon as one side is NaN, true on
    [+0 === -0]. *)
Definition strict_eq (a b : number) : bool := (a =? b)%float.

(** [a !== b]. *)
Definition strict_ne (a b : number) : bool := negb (strict_eq a b).

(** [a <= b] and [a >= b]: both false when a side is NaN. *)
Definition less_eq (a b : number) : bool := (a <=? b)%float.
Definition greater_eq (a b : number) : bool := (b <=? a)%float.

(** [a < b] and [a > b], used to state the claims. *)
Definition less_than (a b : number) : bool := (a <? b)%float.
Definition greater_than (a b : number) : bool := (b <? a)%float.

(** ToBoolean on a number: [+0], [-0] and NaN are falsy. *)
Definition to_boolean (a : number) : bool :=
  negb (PrimFloat.is_zero a || PrimFloat.is_nan a).

End JSNumber.

Import JSNumber.

(** ** Arrays: the three built-ins the component uses *)

(** [array.reduce(callback, initialValue)]: left to right. *)
Definition reduce {A B : Type} (callback : B -> A -> B) (initialValue : B)
  (array : list A) : B :=
  fold_left callback array initialValue.

(** ** Data model *)

(** [interface CartItem]; an optional field that is [undefined] is [None]. *)
Record CartItem : Type := mkCartItem {
  productId : number;
  name : string;
  price : number;
  quantity : number;
  imageUrl : option string;
  discount : option number
}.

(** The product descriptor [addItem] receives. *)
Module Product.
Record t : Type := mk {
  productId : number;
  name : string;
  price : number;
  imgName : option string;
  discount : option number
}.
End Product.

(** [{ ...item, quantity: q }]. *)
Definition with_quantity (item : CartItem) (q : number) : CartItem :=
  {| productId := productId item;
     name := name item;
     price := price item;
     quantity := q;
     imageUrl := imageUrl item;
     discount := discount item |}.

(** [item.productId === productId], the test of [find], [map] and
    [filter] in the updaters. *)
Definition same_product (pid : number) (item : CartItem) : bool :=
  strict_eq (productId item) pid.

(** ** Derived values *)

Definition totalItems (items : list CartItem) : number :=
  reduce (fun sum item => (sum + quantity item)%float) 0%float items.

(** [item.discount ? item.price * (1 - item.discount) : item.price]:
    [undefined], [0], [-0] and NaN take the second branch. *)
Definition itemPrice (item : CartItem) : number :=
  match discount item with
  | Some d => if to_boolean d then (price item * (1 - d))%float else price item
  | None => price item
  end.

Definition subtotal (items : list CartItem) : number :=
  reduce (fun sum item => (sum + itemPrice item * quantity item)%float)
    0%float items.

Definition shipping (items : list CartItem) : number :=
  if greater_eq (subtotal items) 100%float then 0%float else 25%float.

Definition total (items : list CartItem) : number :=
  (subtotal items + shipping items)%float.

(** ** State updaters

    Each is the function handed to [setItems]: from [prevItems] to the
    next state. *)

Definition addItem (product : Product.t) (qty : number)
  (prevItems : list CartItem) : list CartItem :=
  let existingItem :=
    List.find (same_product (Product.productId product)) prevItems in
  match existingItem with
  | Some _ =>
      List.map
        (fun item =>
           if same_product (Product.productId product) item
           then with_quantity item (quantity item + qty)%float
           else item)
        prevItems
  | None =>
      prevItems ++
      [ {| productId := Product.productId product;
           name := Product.name product;
           price := Product.price product;
           quantity := qty;
           imageUrl := Product.imgName product;
           discount := Product.discount product |} ]
  end.

Definition removeItem (pid : number) (prevItems : list CartItem)
  : list CartItem :=
  List.filter (fun item => strict_ne (productId item) pid) prevItems.

Definition updateQuantity (pid : number) (qty : number)
  (prevItems : list CartItem) : list CartItem :=
  if less_eq qty 0%float then removeItem pid prevItems
  else
    List.map
      (fun item => if same_product pid item then with_quantity item qty
                   else item)
      prevItems.

Definition clearCart (prevItems : list CartItem) : list CartItem := [].

(** The function [map] applies in [addItem] and [updateQuantity]: touch
    the quantity of the items carrying [pid], leave the others. *)
Definition requantify (pid : number) (f : CartItem -> number)
  (item : CartItem) : CartItem :=
  if same_product pid item then with_quantity item (f item) else item.

(** ** What the claims speak of *)

(** The discounted unit price in the words of the data model: the
    fraction applies whenever the field is present. *)
Definition discountedUnitPrice (item : CartItem) : number :=
  match discount item with
  | Some d => (price item * (1 - d))%float
  | None => price item
  end.

(** Quantity times discounted unit price. *)
Definition lineTotal (item : CartItem) : number :=
  (quantity item * discountedUnitPrice item)%float.

(** The sum of a sequence of numbers, taken in sequence order from 0. *)
Fixpoint sum_from (acc : number) (xs : list number) : number :=
  match xs with
  | [] => acc
  | x :: rest => sum_from (acc + x)%float rest
  end.

Definition sum_numbers (xs : list number) : number := sum_from 0%float xs.

(** Every discount fraction that is present is a number (not NaN). *)
Definition discounts_are_numbers (items : list CartItem) : Prop :=
  forall item d, In item items -> discount item = Some d ->
                 PrimFloat.is_nan d = false.

(** How many line items carry the key [pid]. *)
Definition count_product (pid : number) (items : list CartItem) : nat :=
  length (List.filter (same_product pid) items).

(** At most one line item per product id. *)
Definition unique_keys (items : list CartItem) : Prop :=
  forall pid, count_product pid items <= 1.

(** ** Persistence

    [localStorage] is a string-keyed store of strings. *)

Module localStorage.

Definition getItem (key : string) (store : gmap string string)
  : option string := store !! key.

Definition setItem (key value : string) (store : gmap string string)
  : gmap string string := <[key := value]> store.

Definition removeItem (key : string) (store : gmap string string)
  : gmap string string := delete key store.

End localStorage.

Definition CART_KEY : string := "octocat-cart"%string.

(** ToBoolean on a string: only the empty string is falsy. *)
Definition string_to_boolean (s : string) : bool :=
  match s with
  | EmptyString => false
  | String _ _ => true
  end.

(** A JSON value that is not an array.  The members of an object are not
    kept: no code path of the component reads them. *)
Inductive JSONOther : Type :=
| JNull
| JBoolean (b : bool)
| JNumber (n : number)
| JString (s : string)
| JObject.

(** What [JSON.parse] does on a text.  The component puts the result in a
    state typed [CartItem[]] without looking at it; the model follows the
    type for arrays (an array is an array of line items, in the order of
    the text) and keeps every other value apart. *)
Inductive ParseResult : Type :=
| SyntaxError
| ParsedItems (items : list CartItem)
| ParsedOther (v : JSONOther).

(** The value held by [useState<CartItem[]>]. *)
Inductive ItemsState : Type :=
| Items (items : list CartItem)
| NotAnArray (v : JSONOther).

(** The data part of the context value built by a render. *)
Record CartContextValue : Type := mkContext {
  ctx_items : list CartItem;
  ctx_totalItems : number;
  ctx_subtotal : number;
  ctx_shipping : number;
  ctx_total : number
}.

(** A render either builds the context value or throws: [items.reduce]
    on a value that is not an array is a TypeError. *)
Inductive RenderResult : Type :=
| Rendered (value : CartContextValue)
| TypeError.

Definition render (state : ItemsState) : RenderResult :=
  match state with
  | Items items =>
      Rendered {| ctx_items := items;
                  ctx_totalItems := totalItems items;
                  ctx_subtotal := subtotal items;
                  ctx_shipping := shipping items;
                  ctx_total := total items |}
  | NotAnArray _ => TypeError
  end.

(** What an effect leaves behind: the store, the argument of [setItems]
    when it was called, and the lines written by [console.error]. *)
Record EffectResult : Type := mkEffect {
  fx_storage : gmap string string;
  fx_setItems : option ItemsState;
  fx_console : list string
}.

(** The provider after its mount effects have run. *)
Record Provider : Type := mkProvider {
  state : ItemsState;
  storage : gmap string string;
  console : list string
}.

(** The cart the persisted entry stands for: the cart of the state, or
    the empty cart of the first render when the state is not an array. *)
Definition mirrored (p : Provider) : list CartItem :=
  match state p with
  | Items items => items
  | NotAnArray _ => []
  end.

Section CartProvider.

(** [JSON.parse] and [JSON.stringify] belong to the platform. *)
Variable JSON_parse : string -> ParseResult.
Variable JSON_stringify : list CartItem -> string.

(** The first effect: load the cart on mount. *)
Definition load_effect (store : gmap string string) : EffectResult :=
  match localStorage.getItem CART_KEY store with
  | Some savedCart =>
      if string_to_boolean savedCart then
        match JSON_parse savedCart with
        | ParsedItems items =>
            {| fx_storage := store; fx_setItems := Some (Items items);
               fx_console := [] |}
        | ParsedOther v =>
            {| fx_storage := store; fx_setItems := Some (NotAnArray v);
               fx_console := [] |}
        | SyntaxError =>
            {| fx_storage := localStorage.removeItem CART_KEY store;
               fx_setItems := None;
               fx_console := ["Error loading cart from localStorage:"%string] |}
        end
      else {| fx_storage := store; fx_setItems := None; fx_console := [] |}
  | None => {| fx_storage := store; fx_setItems := None; fx_console := [] |}
  end.

(** The second effect: save the cart whenever [items] changes. *)
Definition save_effect (items : list CartItem) (store : gmap string string)
  : gmap string string :=
  localStorage.setItem CART_KEY (JSON_stringify items) store.

(** Mounting: the first render has [items = []]; its two effects run in
    source order; a call of [setItems] renders again with the new value,
    and the save effect runs again when that render did not throw. *)
Definition mount (store : gmap string string) : Provider :=
  let loaded := load_effect store in
  let saved := save_effect [] (fx_storage loaded) in
  match fx_setItems loaded with
  | None =>
      {| state := Items []; storage := saved; console := fx_console loaded |}
  | Some (Items items) =>
      {| state := Items items; storage := save_effect items saved;
         console := fx_console loaded |}
  | Some (NotAnArray v) =>
      {| state := NotAnArray v; storage := saved;
         console := fx_console loaded |}
  end.

(** The carts a provider mounted on [store] can hold. *)
Inductive Reachable (store : gmap string string) : list CartItem -> Prop :=
| reach_mount items :
    state (mount store) = Items items -> Reachable store items
| reach_addItem product qty items :
    Reachable store items -> Reachable store (addItem product qty items)
| reach_removeItem pid items :
    Reachable store items -> Reachable store (removeItem pid items)
| reach_updateQuantity pid qty items :
    Reachable store items -> Reachable store (updateQuantity pid qty items)
| reach_clearCart items :
    Reachable store items -> Reachable store (clearCart items).

(** The platform's codec gives a snapshot back unchanged. *)
Definition JSON_round_trips (items : list CartItem) : Prop :=
  JSON_parse (JSON_stringify items) = ParsedItems items /\
  string_to_boolean (JSON_stringify items) = true.

End CartProvider.

(** ** The codec on the snapshots of the test-suite

    [JSON.parse] and [JSON.stringify] as the platform computes them on
    the texts and carts listed here; the closed examples below use them at
    these inputs only. *)

Definition dquote : string := String (ascii_of_nat 34) EmptyString.

Definition sample_item : CartItem :=
  {| productId := 1%float; name := "Test Product"%string; price := 50%float;
     quantity := 2%float; imageUrl := None; discount := None |}.

Definition sample_item_text : string :=
  ("{" ++ dquote ++ "productId" ++ dquote ++ ":1,"
       ++ dquote ++ "name" ++ dquote ++ ":"
       ++ dquote ++ "Test Product" ++ dquote ++ ","
       ++ dquote ++ "price" ++ dquote ++ ":50,"
       ++ dquote ++ "quantity" ++ dquote ++ ":2}")%string.

Definition sample_cart_text : string :=
  ("[" ++ sample_item_text ++ "]")%string.

Definition duplicate_cart_text : string :=
  ("[" ++ sample_item_text ++ "," ++ sample_item_text ++ "]")%string.

Definition option_eqb {A : Type} (eqb : A -> A -> bool) (a b : option A)
  : bool :=
  match a, b with
  | None, None => true
  | Some x, Some y => eqb x y
  | _, _ => false
  end.

Definition item_eqb (a b : CartItem) : bool :=
  PrimFloat.Leibniz.eqb (productId a) (productId b)
  && String.eqb (name a) (name b)
  && PrimFloat.Leibniz.eqb (price a) (price b)
  && PrimFloat.Leibniz.eqb (quantity a) (quantity b)
  && option_eqb String.eqb (imageUrl a) (imageUrl b)
  && option_eqb PrimFloat.Leibniz.eqb (discount a) (discount b).

Definition JSON_parse_samples (text : string) : ParseResult :=
  if String.eqb text "[]" then ParsedItems []
  else if String.eqb text sample_cart_text then ParsedItems [sample_item]
  else if String.eqb text duplicate_cart_text
       then ParsedItems [sample_item; sample_item]
  else if String.eqb text "{}" then ParsedOther JObject
  else if String.eqb text "null" then ParsedOther JNull
  else SyntaxError.

Definition JSON_stringify_samples (items : list CartItem) : string :=
  match items with
  | [] => "[]"%string
  | [a] => if item_eqb a sample_item then sample_cart_text else EmptyString
  | [a; b] =>
      if item_eqb a sample_item && item_eqb b sample_item
      then duplicate_cart_text else EmptyString
  | _ => EmptyString
  end.

(** ** The handlers of the context, and a provider that runs

    The four functions the context value exposes, as the state change
    each one requests. *)

Inductive Action : Type :=
| AddItem (product : Product.t) (qty : number)
| RemoveItem (pid : number)
| UpdateQuantity (pid : number) (qty : number)
| ClearCart.

Definition updater_of (action : Action) : list CartItem -> list CartItem :=
  match action with
  | AddItem product qty => addItem product qty
  | RemoveItem pid => removeItem pid
  | UpdateQuantity pid qty => updateQuantity pid qty
  | ClearCart => clearCart
  end.

(** The product id an action is about. *)
Definition action_key (action : Action) : option number :=
  match action with
  | AddItem product _ => Some (Product.productId product)
  | RemoveItem pid => Some pid
  | UpdateQuantity pid _ => Some pid
  | ClearCart => None
  end.

Definition is_add (action : Action) : bool :=
  match action with
  | AddItem _ _ => true
  | _ => false
  end.

(** The two shapes a state change about one existing key takes: drop the
    lines with the key, or rewrite their quantities in place. *)
Definition is_edit (pid : number) (u : list CartItem -> list CartItem)
  : Prop :=
  (forall items, u items = removeItem pid items) \/
  (exists f, forall items, u items = List.map (requantify pid f) items).

(** The line [addItem] appends for a product that is not in the cart. *)
Definition new_line (product : Product.t) (qty : number) : CartItem :=
  {| productId := Product.productId product;
     name := Product.name product;
     price := Product.price product;
     quantity := qty;
     imageUrl := Product.imgName product;
     discount := Product.discount product |}.

(** A run of [addItem] calls, first call first. *)
Definition add_all (adds : list (Product.t * number))
  (items : list CartItem) : list CartItem :=
  fold_left (fun cart add => addItem (fst add) (snd add) cart) adds items.

(** No two of the ids are [===]. *)
Fixpoint distinct_ids (ids : list number) : Prop :=
  match ids with
  | [] => True
  | pid :: rest =>
      (forall other, In other rest -> strict_eq other pid = false) /\
      distinct_ids rest
  end.

Section CartProviderRuns.

Variable JSON_parse : string -> ParseResult.
Variable JSON_stringify : list CartItem -> string.

(** A handler called on a provider that holds a cart: [setItems] gets the
    updater, which always builds a new array, so the provider renders
    again and the save effect runs.  A provider whose state is not an
    array has thrown in its render and has no handler left to call. *)
Definition dispatch (action : Action) (p : Provider) : option Provider :=
  match state p with
  | Items items =>
      Some {| state := Items (updater_of action items);
              storage := save_effect JSON_stringify
                           (updater_of action items) (storage p);
              console := console p |}
  | NotAnArray _ => None
  end.

(** The providers a page load on [store] can get to. *)
Inductive Runs (store : gmap string string) : Provider -> Prop :=
| run_mount : Runs store (mount JSON_parse JSON_stringify store)
| run_dispatch action p p' :
    Runs store p -> dispatch action p = Some p' -> Runs store p'.

End CartProviderRuns.

(** ** The cart page ([components/Cart.tsx])

    The page is kept as the values its JSX computes.  Where the source
    formats a number ([toFixed(2)], [Math.round]) the value kept is the
    number handed to the formatter. *)

(** [item.discount && <span>-{Math.round(item.discount * 100)}%</span>]:
    nothing for [undefined], the left operand itself when it is a falsy
    number, the badge otherwise. *)
Inductive DiscountBadge : Type :=
| NoBadge
| BareNumber (n : number)
| PercentOff (n : number).

(** [shipping === 0 ? 'FREE' : `$${shipping.toFixed(2)}`]. *)
Inductive ShippingLabel : Type :=
| FreeShipping
| ShippingCost (amount : number).

Record CartLine : Type := mkCartLine {
  line_key : number;
  line_image : option string;
  line_name : string;
  line_price : number;
  line_badge : DiscountBadge;
  line_quantity : number;
  line_total : number
}.

Inductive CartPage : Type :=
| EmptyCartPage
| CartListing (lines : list CartLine) (summary_subtotal : number)
    (shipping_label : ShippingLabel) (free_shipping_banner : bool)
    (summary_total : number).

Definition cart_line (item : CartItem) : CartLine :=
  let itemPrice :=
    match discount item with
    | Some d =>
        if to_boolean d then (price item * (1 - d))%float else price item
    | None => price item
    end in
  let itemTotal := (itemPrice * quantity item)%float in
  {| line_key := productId item;
     line_image :=
       match imageUrl item with
       | Some url =>
           if string_to_boolean url
           then Some ("/images/products/" ++ url)%string else None
       | None => None
       end;
     line_name := name item;
     line_price := price item;
     line_badge :=
       match discount item with
       | Some d =>
           if to_boolean d then PercentOff (d * 100)%float else BareNumber d
       | None => NoBadge
       end;
     line_quantity := quantity item;
     line_total := itemTotal |}.

(** The page for a cart, from the values of the context. *)
Definition cart_page (items : list CartItem) : CartPage :=
  if Nat.eqb (length items) 0 then EmptyCartPage
  else
    CartListing (List.map cart_line items) (subtotal items)
      (if strict_eq (shipping items) 0%float then FreeShipping
       else ShippingCost (shipping items))
      (strict_eq (shipping items) 0%float
       && greater_eq (subtotal items) 100%float)
      (total items).

(** The three buttons of a line. *)
Definition decrease_clicked (item : CartItem) : Action :=
  UpdateQuantity (productId item) (quantity item - 1)%float.

Definition increase_clicked (item : CartItem) : Action :=
  UpdateQuantity (productId item) (quantity item + 1)%float.

Definition remove_clicked (item : CartItem) : Action :=
  RemoveItem (productId item).

(** ** The platform's JSON codec

    [JSON.parse] and [JSON.stringify] as ECMAScript defines them, on the
    texts and values the provider exchanges with the store.  A JavaScript
    string is held as its UTF-8 bytes. *)

(** *** Numbers: the JSON number grammar and [Number::toString] *)

Module JSONNumber.

Local Open Scope Z_scope.

Definition code (c : ascii) : N := N_of_ascii c.
Definition char (n : N) : ascii := ascii_of_N n.

Definition is_digit (c : ascii) : bool :=
  ((48 <=? code c) && (code c <=? 57))%N.
Definition digit_value (c : ascii) : Z := Z.of_N (code c) - 48.
Definition digit_char (d : Z) : ascii := char (Z.to_N (48 + d)).

(** The value of a run of decimal digits, most significant first. *)
Definition digits_value (ds : list ascii) : Z :=
  fold_left (fun acc c => 10 * acc + digit_value c) ds 0.

(** The longest prefix whose characters satisfy [p], and the rest. *)
Fixpoint span (p : ascii -> bool) (cs : list ascii)
  : list ascii * list ascii :=
  match cs with
  | c :: rest =>
      if p c then let (a, b) := span p rest in (c :: a, b) else ([], cs)
  | [] => ([], [])
  end.

Fixpoint digits_rev (fuel : nat) (n : Z) : list ascii :=
  match fuel with
  | O => []
  | S f => if n <? 10 then [digit_char n]
           else digit_char (n mod 10) :: digits_rev f (n / 10)
  end.

(** The decimal digits of [n >= 0], most significant first. *)
Definition digits_of (n : Z) : list ascii :=
  rev (digits_rev (S (Z.to_nat (Z.log2 n))) n).

(** The Number value of [m * 10^e10] for [m >= 0]: the nearest binary64,
    ties to even.  A value of [10^310] or more is Infinity and one below
    [10^-330] is zero; the exact quotient is not computed for them. *)
Definition decimal_to_number (neg : bool) (m : Z) (e10 : Z) : number :=
  match m with
  | Zpos p =>
      let mag := Z.of_nat (List.length (digits_of m)) + e10 in
      if 310 <? mag then SF2Prim (S754_infinity neg)
      else if mag <? -330 then SF2Prim (S754_zero neg)
      else if 0 <=? e10
      then SF2Prim (binary_normalize prec emax
                      (if neg then - (m * 10 ^ e10) else m * 10 ^ e10) 0 neg)
      else SF2Prim (SFdiv prec emax (S754_finite neg p 0)
                      (S754_finite false (Z.to_pos (10 ^ (- e10))) 0))
  | _ => SF2Prim (S754_zero neg)
  end.

(** A JSON number: an optional minus sign, then the integer part, the
    fraction and the exponent. *)
Definition literal_int (cs : list ascii)
  : option (list ascii * list ascii) :=
  match cs with
  | "0"%char :: rest => Some (["0"%char], rest)
  | c :: _ => if is_digit c then Some (span is_digit cs) else None
  | [] => None
  end.

Definition literal_frac (cs : list ascii)
  : option (list ascii * list ascii) :=
  match cs with
  | "."%char :: rest =>
      match span is_digit rest with
      | ([], _) => None
      | (ds, rest') => Some (ds, rest')
      end
  | _ => Some ([], cs)
  end.

Definition literal_exp_digits (neg : bool) (cs : list ascii)
  : option (Z * list ascii) :=
  match span is_digit cs with
  | ([], _) => None
  | (ds, rest) =>
      Some (if neg then - digits_value ds else digits_value ds, rest)
  end.

Definition literal_exp (cs : list ascii) : option (Z * list ascii) :=
  match cs with
  | c :: rest =>
      if (Ascii.eqb c "e" || Ascii.eqb c "E")%bool then
        match rest with
        | "+"%char :: rest' => literal_exp_digits false rest'
        | "-"%char :: rest' => literal_exp_digits true rest'
        | _ => literal_exp_digits false rest
        end
      else Some (0, cs)
  | [] => Some (0, cs)
  end.

Definition literal_body (neg : bool) (cs : list ascii) : option number :=
  match literal_int cs with
  | Some (int, cs2) =>
      match literal_frac cs2 with
      | Some (frac, cs3) =>
          match literal_exp cs3 with
          | Some (e, []) =>
              Some (decimal_to_number neg (digits_value (int ++ frac))
                      (e - Z.of_nat (List.length frac)))
          | _ => None
          end
      | None => None
      end
  | None => None
  end.

(** The Number a whole text denotes, when the text is a JSON number. *)
Definition literal_value (cs : list ascii) : option number :=
  match cs with
  | "-"%char :: rest => literal_body true rest
  | _ => literal_body false cs
  end.

Definition zeros (n : Z) : list ascii := repeat "0"%char (Z.to_nat n).

(** [Number::toString] once the digits [s] ([k] of them) and the
    exponent [n] are chosen: the value is [s * 10^(n-k)]. *)
Definition format_decimal (s n k : Z) : list ascii :=
  let ds := digits_of s in
  if (k <=? n) && (n <=? 21) then ds ++ zeros (n - k)
  else if (0 <? n) && (n <=? 21)
  then firstn (Z.to_nat n) ds ++ "."%char :: skipn (Z.to_nat n) ds
  else if (-6 <? n) && (n <=? 0)
  then "0"%char :: "."%char :: zeros (- n) ++ ds
  else
    let e := n - 1 in
    let exponent :=
      "e"%char :: (if e <? 0 then "-"%char else "+"%char)
               :: digits_of (Z.abs e) in
    match ds with
    | d :: (_ :: _) as more => d :: "."%char :: more ++ exponent
    | _ => ds ++ exponent
    end.

(** The text denotes exactly the number [x]. *)
Definition reads_back (text : list ascii) (x : number) : bool :=
  match literal_value text with
  | Some y => PrimFloat.Leibniz.eqb y x
  | None => false
  end.

(** The least [n] from the estimate on with [num / den < 10^n]. *)
Fixpoint find_exponent (fuel : nat) (num den n : Z) : Z :=
  match fuel with
  | O => n
  | S f =>
      if (if 0 <=? n then num <? den * 10 ^ n else num * 10 ^ (- n) <? den)
      then n else find_exponent f num den (n + 1)
  end.

(** The two [k]-digit decimals around [num / den], the nearer first, the
    even one first on a tie. *)
Definition candidates (num den n k : Z) : list (Z * Z) :=
  let j := n - k in
  let a := if 0 <=? j then num else num * 10 ^ (- j) in
  let b := if 0 <=? j then den * 10 ^ j else den in
  let lo := a / b in
  let r := a - lo * b in
  let low := (lo, n) in
  let high :=
    if lo + 1 =? 10 ^ k then (10 ^ (k - 1), n + 1) else (lo + 1, n) in
  if r =? 0 then [low]
  else if 2 * r <? b then [low; high]
  else if b <? 2 * r then [high; low]
  else if Z.even lo then [low; high] else [high; low].

(** As few digits as denote [x]: [k] grows until a candidate reads
    back. *)
Fixpoint shortest (fuel : nat) (x : number) (num den n k : Z)
  : list ascii :=
  match fuel with
  | O => format_decimal (fst (hd (0, n) (candidates num den n k))) n k
  | S f =>
      match List.filter
              (fun c => reads_back (format_decimal (fst c) (snd c) k) x)
              (candidates num den n k) with
      | c :: _ => format_decimal (fst c) (snd c) k
      | [] => shortest f x num den n (k + 1)
      end
  end.

(** [Number::toString] of the positive finite number [m * 2^e]. *)
Definition positive_to_string (x : number) (m : positive) (e : Z)
  : list ascii :=
  let num := if 0 <=? e then Zpos m * 2 ^ e else Zpos m in
  let den := if 0 <=? e then 1 else 2 ^ (- e) in
  let bits := Z.log2 (Zpos m) + 1 + e in
  let n := find_exponent 8 num den ((bits - 1) * 30102 / 100000 - 1) in
  shortest 16 x num den n 1.

(** What [JSON.stringify] writes for a number: [null] for NaN and the
    infinities, [0] for both zeros. *)
Definition number_text (x : number) : list ascii :=
  match Prim2SF x with
  | S754_zero _ => ["0"%char]
  | S754_finite false m e => positive_to_string x m e
  | S754_finite true m e => "-"%char :: positive_to_string (- x)%float m e
  | _ => list_ascii_of_string "null"
  end.

End JSONNumber.

Import JSONNumber.

(** *** Strings: [QuoteJSONString] and the string literal *)

Module JSONString.

Local Open Scope N_scope.

Definition hex_char (d : N) : ascii :=
  if d <? 10 then char (48 + d) else char (87 + d).

Definition escape_char (c : ascii) : list ascii :=
  let n := code c in
  if n =? 8 then ["\"; "b"]%char
  else if n =? 9 then ["\"; "t"]%char
  else if n =? 10 then ["\"; "n"]%char
  else if n =? 12 then ["\"; "f"]%char
  else if n =? 13 then ["\"; "r"]%char
  else if n =? 34 then ["\"%char; char 34]
  else if n =? 92 then ["\"; "\"]%char
  else if n <? 32
  then ["\"; "u"; "0"; "0"]%char ++ [hex_char (n / 16); hex_char (n mod 16)]
  else [c].

Definition quote_chars (s : list ascii) : list ascii :=
  char 34 :: flat_map escape_char s ++ [char 34].

Definition hex_value (c : ascii) : option N :=
  let n := code c in
  if (48 <=? n) && (n <=? 57) then Some (n - 48)
  else if (97 <=? n) && (n <=? 102) then Some (n - 87)
  else if (65 <=? n) && (n <=? 70) then Some (n - 55)
  else None.

Definition hex4 (a b c d : ascii) : option N :=
  match hex_value a, hex_value b, hex_value c, hex_value d with
  | Some x, Some y, Some z, Some w => Some (((x * 16 + y) * 16 + z) * 16 + w)
  | _, _, _, _ => None
  end.

(** The bytes of a code point. *)
Definition utf8 (u : N) : list ascii :=
  if u <? 128 then [char u]
  else if u <? 2048 then [char (192 + u / 64); char (128 + u mod 64)]
  else if u <? 65536
  then [char (224 + u / 4096); char (128 + (u / 64) mod 64);
        char (128 + u mod 64)]
  else [char (240 + u / 262144); char (128 + (u / 4096) mod 64);
        char (128 + (u / 64) mod 64); char (128 + u mod 64)].

Definition is_high_surrogate (u : N) : bool :=
  (55296 <=? u) && (u <=? 56319).
Definition is_low_surrogate (u : N) : bool :=
  (56320 <=? u) && (u <=? 57343).

(** The characters after an opening quote up to the closing one, and
    what follows it. *)
Fixpoint read_string (cs : list ascii) : option (list ascii * list ascii) :=
  match cs with
  | [] => None
  | c :: rest =>
      if code c =? 34 then Some ([], rest)
      else if code c =? 92 then
        match rest with
        | e :: rest1 =>
            let simple (b : N) :=
              match read_string rest1 with
              | Some (s, r) => Some (char b :: s, r)
              | None => None
              end in
            if code e =? 34 then simple 34
            else if code e =? 92 then simple 92
            else if code e =? 47 then simple 47
            else if code e =? 98 then simple 8
            else if code e =? 102 then simple 12
            else if code e =? 110 then simple 10
            else if code e =? 114 then simple 13
            else if code e =? 116 then simple 9
            else if code e =? 117 then
              match rest1 with
              | h1 :: h2 :: h3 :: h4 :: rest2 =>
                  match hex4 h1 h2 h3 h4 with
                  | Some u =>
                      let single :=
                        match read_string rest2 with
                        | Some (s, r) => Some (utf8 u ++ s, r)
                        | None => None
                        end in
                      if is_high_surrogate u then
                        match rest2 with
                        | b :: v :: l1 :: l2 :: l3 :: l4 :: rest3 =>
                            if (code b =? 92) && (code v =? 117) then
                              match hex4 l1 l2 l3 l4 with
                              | Some w =>
                                  if is_low_surrogate w then
                                    match read_string rest3 with
                                    | Some (s, r) =>
                                        Some (utf8 (65536 + (u - 55296) * 1024
                                                    + (w - 56320)) ++ s, r)
                                    | None => None
                                    end
                                  else single
                              | None => single
                              end
                            else single
                        | _ => single
                        end
                      else single
                  | None => None
                  end
              | _ => None
              end
            else None
        | [] => None
        end
      else if code c <? 32 then None
      else
        match read_string rest with
        | Some (s, r) => Some (c :: s, r)
        | None => None
        end
  end.

End JSONString.

Import JSONString.

(** *** Texts: tokens, values and [JSON.parse] *)

Inductive Token : Type :=
| TLBracket | TRBracket | TLBrace | TRBrace | TColon | TComma
| TTrue | TFalse | TNull
| TNumber (n : number)
| TString (s : list ascii).

Definition is_whitespace (c : ascii) : bool :=
  let n := code c in
  ((n =? 32) || (n =? 9) || (n =? 10) || (n =? 13))%N.

Definition is_number_char (c : ascii) : bool :=
  let n := code c in
  (is_digit c || (n =? 45) || (n =? 43) || (n =? 46) || (n =? 101)
   || (n =? 69))%N.

Definition cons_token (t : Token) (ts : option (list Token))
  : option (list Token) :=
  option_map (cons t) ts.

Definition tokens_then (ts : list Token) (rest : option (list Token))
  : option (list Token) :=
  option_map (app ts) rest.

(** The tokens of a text; the next [skip] characters belong to the token
    just read. *)
Fixpoint lex (skip : nat) (cs : list ascii) : option (list Token) :=
  match cs with
  | [] => Some []
  | c :: rest =>
      match skip with
      | S k => lex k rest
      | O =>
          let n := code c in
          if is_whitespace c then lex 0 rest
          else if (n =? 91)%N then cons_token TLBracket (lex 0 rest)
          else if (n =? 93)%N then cons_token TRBracket (lex 0 rest)
          else if (n =? 123)%N then cons_token TLBrace (lex 0 rest)
          else if (n =? 125)%N then cons_token TRBrace (lex 0 rest)
          else if (n =? 58)%N then cons_token TColon (lex 0 rest)
          else if (n =? 44)%N then cons_token TComma (lex 0 rest)
          else if (n =? 34)%N then
            match read_string rest with
            | Some (s, rest') =>
                cons_token (TString s)
                  (lex (List.length rest - List.length rest') rest)
            | None => None
            end
          else if is_number_char c then
            let (text, rest') := span is_number_char cs in
            match literal_value text with
            | Some x =>
                cons_token (TNumber x)
                  (lex (List.length rest - List.length rest') rest)
            | None => None
            end
          else
            match cs with
            | "t" :: "r" :: "u" :: "e" :: _ => cons_token TTrue (lex 3 rest)
            | "f" :: "a" :: "l" :: "s" :: "e" :: _ =>
                cons_token TFalse (lex 4 rest)
            | "n" :: "u" :: "l" :: "l" :: _ => cons_token TNull (lex 3 rest)
            | _ => None
            end%char
      end
  end.

#[local] Unset Elimination Schemes.

Inductive JSONValue : Type :=
| VNull
| VBoolean (b : bool)
| VNumber (n : number)
| VString (s : list ascii)
| VArray (elements : list JSONValue)
| VObject (members : list (list ascii * JSONValue)).

#[local] Set Elimination Schemes.

Fixpoint parse_value (fuel : nat) (ts : list Token)
  : option (JSONValue * list Token) :=
  match fuel with
  | O => None
  | S f =>
      match ts with
      | TNull :: rest => Some (VNull, rest)
      | TTrue :: rest => Some (VBoolean true, rest)
      | TFalse :: rest => Some (VBoolean false, rest)
      | TNumber n :: rest => Some (VNumber n, rest)
      | TString s :: rest => Some (VString s, rest)
      | TLBracket :: TRBracket :: rest => Some (VArray [], rest)
      | TLBracket :: rest =>
          match parse_elements f rest with
          | Some (vs, rest') => Some (VArray vs, rest')
          | None => None
          end
      | TLBrace :: TRBrace :: rest => Some (VObject [], rest)
      | TLBrace :: rest =>
          match parse_members f rest with
          | Some (ms, rest') => Some (VObject ms, rest')
          | None => None
          end
      | _ => None
      end
  end
with parse_elements (fuel : nat) (ts : list Token)
  : option (list JSONValue * list Token) :=
  match fuel with
  | O => None
  | S f =>
      match parse_value f ts with
      | Some (v, TComma :: rest) =>
          match parse_elements f rest with
          | Some (vs, rest') => Some (v :: vs, rest')
          | None => None
          end
      | Some (v, TRBracket :: rest) => Some ([v], rest)
      | _ => None
      end
  end
with parse_members (fuel : nat) (ts : list Token)
  : option (list (list ascii * JSONValue) * list Token) :=
  match fuel with
  | O => None
  | S f =>
      match ts with
      | TString k :: TColon :: rest =>
          match parse_value f rest with
          | Some (v, TComma :: rest') =>
              match parse_members f rest' with
              | Some (ms, rest'') => Some ((k, v) :: ms, rest'')
              | None => None
              end
          | Some (v, TRBrace :: rest') => Some ([(k, v)], rest')
          | _ => None
          end
      | _ => None
      end
  end.

(** [JSON.parse] of a text; [None] stands for the SyntaxError.  The fuel
    bounds the depth of the calls of the parser, which never exceeds the
    number of tokens. *)
Definition JSON_parse_value (text : string) : option JSONValue :=
  match lex 0 (list_ascii_of_string text) with
  | Some ts =>
      match parse_value (S (List.length ts)) ts with
      | Some (v, []) => Some v
      | _ => None
      end
  | None => None
  end.

(** *** The values that are carts *)

Definition key (s : string) : list ascii := list_ascii_of_string s.

Definition chars_eqb (a b : list ascii) : bool :=
  String.eqb (string_of_list_ascii a) (string_of_list_ascii b).

(** The value of a property; a later member of the same name replaces an
    earlier one. *)
Fixpoint member (k : list ascii) (ms : list (list ascii * JSONValue))
  : option JSONValue :=
  match ms with
  | [] => None
  | (k', v) :: rest =>
      match member k rest with
      | Some v' => Some v'
      | None => if chars_eqb k k' then Some v else None
      end
  end.

Definition known_key (k : list ascii) : bool :=
  existsb (fun name => chars_eqb k (key name))
    ["productId"; "name"; "price"; "quantity"; "imageUrl"; "discount"]%string.

Definition as_number (v : option JSONValue) : option number :=
  match v with Some (VNumber n) => Some n | _ => None end.

Definition as_string (v : option JSONValue) : option string :=
  match v with
  | Some (VString s) => Some (string_of_list_ascii s)
  | _ => None
  end.

Definition as_optional {A : Type} (read : option JSONValue -> option A)
  (v : option JSONValue) : option (option A) :=
  match v with
  | None => Some None
  | Some _ => match read v with Some a => Some (Some a) | None => None end
  end.

(** An object with the fields of [CartItem], each of its declared type,
    and no other field. *)
Definition as_item (v : JSONValue) : option CartItem :=
  match v with
  | VObject ms =>
      if forallb (fun m => known_key (fst m)) ms then
        match as_number (member (key "productId") ms),
              as_string (member (key "name") ms),
              as_number (member (key "price") ms),
              as_number (member (key "quantity") ms),
              as_optional as_string (member (key "imageUrl") ms),
              as_optional as_number (member (key "discount") ms) with
        | Some pid, Some nm, Some pr, Some qty, Some img, Some dis =>
            Some (mkCartItem pid nm pr qty img dis)
        | _, _, _, _, _, _ => None
        end
      else None
  | _ => None
  end.

Fixpoint as_items (vs : list JSONValue) : option (list CartItem) :=
  match vs with
  | [] => Some []
  | v :: rest =>
      match as_item v, as_items rest with
      | Some item, Some items => Some (item :: items)
      | _, _ => None
      end
  end.

(** [JSON.parse] as the load effect sees it.  An array that is not an
    array of line items has no [ParseResult]: the model is silent there. *)
Definition JSON_parse_model (text : string) : option ParseResult :=
  match JSON_parse_value text with
  | None => Some SyntaxError
  | Some (VArray vs) => option_map ParsedItems (as_items vs)
  | Some VNull => Some (ParsedOther JNull)
  | Some (VBoolean b) => Some (ParsedOther (JBoolean b))
  | Some (VNumber n) => Some (ParsedOther (JNumber n))
  | Some (VString s) => Some (ParsedOther (JString (string_of_list_ascii s)))
  | Some (VObject _) => Some (ParsedOther JObject)
  end.

(** [JSON.parse] on the texts the model types; [outside] stands for the
    results it is silent about. *)
Definition JSON_parse_within (outside : ParseResult) (text : string)
  : ParseResult :=
  match JSON_parse_model text with
  | Some result => result
  | None => outside
  end.

(** *** [JSON.stringify] of a cart

    The properties come in the order [addItem] writes them; a property
    that is [undefined] is left out. *)

Definition member_text (name : string) (value : list ascii) : list ascii :=
  quote_chars (key name) ++ ":"%char :: value.

Definition string_text (s : string) : list ascii :=
  quote_chars (list_ascii_of_string s).

Definition item_text (item : CartItem) : list ascii :=
  "{"%char ::
  member_text "productId" (number_text (productId item)) ++ ","%char ::
  member_text "name" (string_text (name item)) ++ ","%char ::
  member_text "price" (number_text (price item)) ++ ","%char ::
  member_text "quantity" (number_text (quantity item)) ++
  match imageUrl item with
  | Some url => ","%char :: member_text "imageUrl" (string_text url)
  | None => []
  end ++
  match discount item with
  | Some d => ","%char :: member_text "discount" (number_text d)
  | None => []
  end ++ ["}"%char].

Fixpoint items_text (items : list CartItem) : list ascii :=
  match items with
  | [] => []
  | [item] => item_text item
  | item :: rest => item_text item ++ ","%char :: items_text rest
  end.

Definition JSON_stringify_model (items : list CartItem) : string :=
  string_of_list_ascii ("["%char :: items_text items ++ ["]"%char]).

(** The platform's codec agrees with the model: [JSON.parse] wherever the
    model gives a result, [JSON.stringify] on every cart. *)
Definition JSON_conforms (JSON_parse : string -> ParseResult)
  (JSON_stringify : list CartItem -> string) : Prop :=
  (forall text result,
      JSON_parse_model text = Some result -> JSON_parse text = result) /\
  (forall items, JSON_stringify items = JSON_stringify_model items).

(** *** The snapshots a JSON text can carry *)

(** The number is the one its text denotes.  NaN and the infinities are
    written [null], and [-0] is written [0]. *)
Definition json_number (x : number) : bool := reads_back (number_text x) x.

Definition valid_item (item : CartItem) : bool :=
  json_number (productId item) && json_number (price item)
  && json_number (quantity item)
  && match discount item with Some d => json_number d | None => true end.

Definition valid_snapshot (items : list CartItem) : bool :=
  forallb valid_item items.

(** The tokens and the value of the text written for a cart. *)
Definition item_tokens (item : CartItem) : list Token :=
  TLBrace ::
  TString (key "productId") :: TColon :: TNumber (productId item) :: TComma ::
  TString (key "name") :: TColon
    :: TString (list_ascii_of_string (name item)) :: TComma ::
  TString (key "price") :: TColon :: TNumber (price item) :: TComma ::
  TString (key "quantity") :: TColon :: TNumber (quantity item) ::
  match imageUrl item with
  | Some url =>
      [TComma; TString (key "imageUrl"); TColon;
       TString (list_ascii_of_string url)]
  | None => []
  end ++
  match discount item with
  | Some d => [TComma; TString (key "discount"); TColon; TNumber d]
  | None => []
  end ++ [TRBrace].

Fixpoint items_tokens (items : list CartItem) : list Token :=
  match items with
  | [] => []
  | [item] => item_tokens item
  | item :: rest => item_tokens item ++ TComma :: items_tokens rest
  end.

Definition item_value (item : CartItem) : JSONValue :=
  VObject
    ((key "productId", VNumber (productId item)) ::
     (key "name", VString (list_ascii_of_string (name item))) ::
     (key "price", VNumber (price item)) ::
     (key "quantity", VNumber (quantity item)) ::
     match imageUrl item with
     | Some url => [(key "imageUrl", VString (list_ascii_of_string url))]
     | None => []
     end ++
     match discount item with
     | Some d => [(key "discount", VNumber d)]
     | None => []
     end).

Definition number_chars (t : list ascii) : Prop :=
  forallb is_number_char t = true.

(** *** Carts for the examples *)

(** A discounted product with an image, and one whose name has a quote,
    a backslash and a line break in it. *)
Definition feeder : Product.t :=
  Product.mk 2%float "SmartFeeder One"%string 129.99%float
    (Some "feeder.png"%string) (Some 0.25%float).

Definition tower_name : string :=
  ("Cat Tower 5" ++ dquote ++ " \ deluxe"
   ++ String (ascii_of_nat 10) "edition")%string.

Definition tower : Product.t :=
  Product.mk 3%float tower_name 89.5%float None (Some 0.1%float).

Definition mixed_cart : list CartItem :=
  addItem tower 1%float
    (addItem feeder 3%float
       (addItem (Product.mk 1%float "Test Product"%string 50%float None None)
          2%float [])).

Definition quoted (s : string) : string := (dquote ++ s ++ dquote)%string.

(** The text [JSON.stringify] writes for [mixed_cart]. *)
Definition mixed_cart_text : string :=
  ("[{" ++ quoted "productId" ++ ":1," ++ quoted "name" ++ ":"
        ++ quoted "Test Product" ++ "," ++ quoted "price" ++ ":50,"
        ++ quoted "quantity" ++ ":2},{"
        ++ quoted "productId" ++ ":2," ++ quoted "name" ++ ":"
        ++ quoted "SmartFeeder One" ++ "," ++ quoted "price" ++ ":129.99,"
        ++ quoted "quantity" ++ ":3," ++ quoted "imageUrl" ++ ":"
        ++ quoted "feeder.png" ++ "," ++ quoted "discount" ++ ":0.25},{"
        ++ quoted "productId" ++ ":3," ++ quoted "name" ++ ":"
        ++ quoted ("Cat Tower 5\" ++ dquote ++ " \\ deluxe\nedition") ++ ","
        ++ quoted "price" ++ ":89.5," ++ quoted "quantity" ++ ":1,"
        ++ quoted "discount" ++ ":0.1}]")%string.

(** The cart of the tests after [updateQuantity(1, NaN)] and after
    [updateQuantity(1, Infinity)], and the text written for both. *)
Definition nan_cart : list CartItem :=
  updateQuantity 1%float PrimFloat.nan [sample_item].

Definition infinity_cart : list CartItem :=
  updateQuantity 1%float PrimFloat.infinity [sample_item].

Definition null_quantity_text : string :=
  ("[{" ++ quoted "productId" ++ ":1," ++ quoted "name" ++ ":"
        ++ quoted "Test Product" ++ "," ++ quoted "price" ++ ":50,"
        ++ quoted "quantity" ++ ":null}]")%string.

(** * Facts about binary64 arithmetic

    Each is read off the specification of the primitive operation
    ([SpecFloat]) through the correspondence [Prim2SF]. *)

Module NumberFacts.

(** Two finite values of one sign are ordered by exponent, then by
    mantissa; swapping the sides swaps both comparisons. *)
Ltac swap_finite_compare ex ey mx my :=
  rewrite (Z.compare_antisym ex ey); destruct (ex ?= ey)%Z; simpl;
  try discriminate; try reflexivity;
  change (Pos.compare_cont Eq my mx) with (Pos.compare my mx);
  change (Pos.compare_cont Eq mx my) with (Pos.compare mx my);
  rewrite (Pos.compare_antisym mx my); destruct (mx ?= my)%positive; simpl;
  try discriminate; reflexivity.

Lemma SFcompare_Lt_flip x y :
  SFcompare x y = Some Lt -> SFcompare y x = Some Gt.
Proof.
  destruct x as [[]|[]| |[] mx ex], y as [[]|[]| |[] my ey]; simpl;
    try discriminate; try reflexivity; swap_finite_compare ex ey mx my.
Qed.

(** [a < b] excludes [b <= a], that is [a >= b]. *)
Lemma less_than_not_greater_eq (a b : number) :
  less_than a b = true -> less_eq b a = false.
Proof.
  unfold less_than, less_eq.
  rewrite FloatAxioms.ltb_spec, FloatAxioms.leb_spec. unfold SFltb, SFleb.
  destruct (SFcompare (Prim2SF a) (Prim2SF b)) as [[]|] eqn:E;
    try discriminate.
  intros _. now rewrite (SFcompare_Lt_flip _ _ E).
Qed.

Lemma SFeqb_sym x y : SFeqb x y = SFeqb y x.
Proof.
  unfold SFeqb.
  destruct x as [[]|[]| |[] mx ex], y as [[]|[]| |[] my ey]; simpl;
    try reflexivity; swap_finite_compare ex ey mx my.
Qed.

(** What [===] tells about the two sides. *)
Lemma SFeqb_true x y :
  SFeqb x y = true ->
  match x, y with
  | S754_zero _, S754_zero _ => True
  | S754_infinity a, S754_infinity b => a = b
  | S754_finite a m e, S754_finite b n f => a = b /\ m = n /\ e = f
  | _, _ => False
  end.
Proof.
  unfold SFeqb.
  destruct x as [[]|[]| |[] mx ex], y as [[]|[]| |[] my ey]; simpl;
    try discriminate; try tauto;
    destruct (ex ?= ey)%Z eqn:E; simpl; try discriminate;
    change (Pos.compare_cont Eq mx my) with (Pos.compare mx my);
    destruct (mx ?= my)%positive eqn:F; simpl; try discriminate;
    intros _; apply Z.compare_eq in E; apply Pos.compare_eq in F; now subst.
Qed.

Lemma SFeqb_trans x y z :
  SFeqb x y = true -> SFeqb y z = true -> SFeqb x z = true.
Proof.
  intros H1 H2. apply SFeqb_true in H1. apply SFeqb_true in H2.
  destruct x as [sx|sx| |sx mx ex], y as [sy|sy| |sy my ey];
    try contradiction;
    destruct z as [sz|sz| |sz mz ez]; try contradiction.
  - reflexivity.
  - subst. unfold SFeqb. destruct sz; reflexivity.
  - destruct H1 as (-> & -> & ->), H2 as (-> & -> & ->).
    unfold SFeqb; simpl. rewrite Z.compare_refl.
    change (Pos.compare_cont Eq mz mz) with (Pos.compare mz mz).
    rewrite Pos.compare_refl. destruct sz; reflexivity.
Qed.

Lemma strict_eq_sym (a b : number) : strict_eq a b = strict_eq b a.
Proof. unfold strict_eq. rewrite !FloatAxioms.eqb_spec. apply SFeqb_sym. Qed.

Lemma strict_eq_trans (a b c : number) :
  strict_eq a b = true -> strict_eq b c = true -> strict_eq a c = true.
Proof. unfold strict_eq. rewrite !FloatAxioms.eqb_spec. apply SFeqb_trans. Qed.

(** A number that is [===] to something is [===] to itself. *)
Lemma strict_eq_refl_of (a b : number) :
  strict_eq a b = true -> strict_eq a a = true.
Proof.
  intros H. apply (strict_eq_trans a b a); [exact H|].
  now rewrite strict_eq_sym.
Qed.

Lemma SFmul_comm x y : SF64mul x y = SF64mul y x.
Proof.
  unfold SF64mul.
  destruct x as [sx|sx| |sx mx ex], y as [sy|sy| |sy my ey]; simpl;
    rewrite ?(xorb_comm sx sy); try reflexivity.
  now rewrite (Pos.mul_comm mx my), (Z.add_comm ex ey).
Qed.

Lemma mul_comm (a b : number) : (a * b = b * a)%float.
Proof. apply Prim2SF_inj. rewrite !FloatAxioms.mul_spec. apply SFmul_comm. Qed.

(** Multiplying a representable value by one is exact: the product of the
    mantissas is the mantissa shifted by 52 bits, and rounding shifts it
    back without losing a bit. *)
Lemma SFmul_one_r x :
  valid_binary x = true -> SF64mul x (Prim2SF 1%float) = x.
Proof.
  change (Prim2SF 1%float) with (S754_finite false 4503599627370496 (-52)).
  unfold SF64mul.
  destruct x as [sx|sx| |sx mx ex]; simpl; rewrite ?xorb_false_r;
    try reflexivity.
  intros Hv. unfold bounded, canonical_mantissa in Hv.
  apply andb_prop in Hv. destruct Hv as [Hc Hb].
  apply Z.eqb_eq in Hc.
  rewrite (Pos.mul_comm mx).
  unfold binary_round_aux, shr_fexp.
  cbv beta iota delta [Pos.mul].
  cbn [Zdigits2 digits2_pos].
  set (d := digits2_pos mx) in *.
  match goal with
  | |- context [fexp ?p ?e ?z] => replace (fexp p e z) with ex
  end.
  2:{ rewrite <- Hc at 1. apply (f_equal (fexp prec emax)). lia. }
  replace (ex - (ex + -52))%Z with 52%Z by lia.
  cbn [shr SpecFloat.iter_pos shr_1 shr_record_of_loc orb shr_m loc_of_shr_record
       round_nearest_even Zdigits2 shr_r shr_s].
  fold d.
  replace (ex + -52 + 52)%Z with ex by lia.
  rewrite Hc, Z.sub_diag. cbn [shr shr_m shr_record_of_loc].
  now rewrite Hb.
Qed.

Lemma mul_one_r (a : number) : (a * 1 = a)%float.
Proof.
  apply Prim2SF_inj. rewrite FloatAxioms.mul_spec.
  apply SFmul_one_r, Prim2SF_valid.
Qed.

(** [1 - 0] and [1 - (-0)] are [1]. *)
Lemma one_sub_zero (d : number) :
  PrimFloat.is_zero d = true -> (1 - d = 1)%float.
Proof.
  unfold PrimFloat.is_zero. rewrite FloatAxioms.eqb_spec. intros H.
  apply SFeqb_true in H.
  apply Prim2SF_inj. rewrite FloatAxioms.sub_spec.
  change (Prim2SF zero) with (S754_zero false) in H.
  change (Prim2SF 1%float) with (S754_finite false 4503599627370496 (-52)).
  destruct (Prim2SF d); try contradiction. reflexivity.
Qed.

(** Two numerals that differ under [===] are different numbers. *)
Lemma strict_ne_neq (a b : number) :
  strict_eq a a = true -> strict_eq a b = false -> a <> b.
Proof. intros Ha Hab ->. congruence. Qed.

End NumberFacts.

Import NumberFacts.

(** * The derived totals *)

(** On a line item whose discount, if any, is a number, the price the
    render uses times the quantity is the line total of the data model:
    a discount of [0] or [-0] takes the undiscounted branch, and
    [price * (1 - 0)] is [price]. *)
Lemma itemPrice_times_quantity item :
  (forall d, discount item = Some d -> PrimFloat.is_nan d = false) ->
  (itemPrice item * quantity item)%float = lineTotal item.
Proof.
  intros Hnum. unfold itemPrice, lineTotal, discountedUnitPrice.
  destruct (discount item) as [d|]; [|apply mul_comm].
  unfold to_boolean. specialize (Hnum d eq_refl). rewrite Hnum, orb_false_r.
  destruct (PrimFloat.is_zero d) eqn:Hz; cbn [negb]; [|apply mul_comm].
  now rewrite (one_sub_zero d Hz), mul_one_r, mul_comm.
Qed.

Lemma discounts_are_numbers_cons item items :
  discounts_are_numbers (item :: items) ->
  (forall d, discount item = Some d -> PrimFloat.is_nan d = false) /\
  discounts_are_numbers items.
Proof.
  intros H. split.
  - intros d Hd. apply (H item d); [now left | exact Hd].
  - intros it d Hin Hd. apply (H it d); [now right | exact Hd].
Qed.

Lemma subtotal_from items : forall acc,
  discounts_are_numbers items ->
  fold_left (fun sum item => (sum + itemPrice item * quantity item)%float)
    items acc
  = sum_from acc (List.map lineTotal items).
Proof.
  induction items as [|item items IH]; intros acc Hnum; [reflexivity|].
  apply discounts_are_numbers_cons in Hnum. destruct Hnum as [Hitem Hrest].
  cbn [fold_left List.map sum_from].
  rewrite (itemPrice_times_quantity item Hitem). now apply IH.
Qed.

(** C1.  The subtotal of a cart is the sum, in display order, of quantity
    times discounted unit price over its line items, the discounted unit
    price being [price * (1 - discount)] when a discount fraction is
    present and [price] otherwise; and one item priced 100 with discount
    0.25 and quantity 2 gives a subtotal of 150. *)
Theorem subtotal_is_sum_of_line_totals :
  (forall items,
      discounts_are_numbers items ->
      subtotal items = sum_numbers (List.map lineTotal items)) /\
  (forall pid nm img,
      subtotal [mkCartItem pid nm 100%float 2%float img (Some 0.25%float)]
      = 150%float).
Proof.
  split.
  - intros items Hnum. unfold subtotal, reduce, sum_numbers.
    now apply subtotal_from.
  - intros pid nm img. reflexivity.
Qed.

(** The cart of the test "should handle discount calculations correctly". *)
Lemma subtotal_of_discounted_product :
  let cart := [mkCartItem 1%float "Discounted Product"%string 100%float
                 2%float None (Some 0.25%float)] in
  discounts_are_numbers cart /\
  subtotal cart = sum_numbers (List.map lineTotal cart) /\
  sum_numbers (List.map lineTotal cart) = 150%float.
Proof.
  cbv zeta.
  assert (Hnum : discounts_are_numbers
                   [mkCartItem 1%float "Discounted Product"%string 100%float
                      2%float None (Some 0.25%float)]).
  { intros item d [<-|[]] Hd. injection Hd as <-. reflexivity. }
  split; [exact Hnum|]. split.
  - exact (proj1 subtotal_is_sum_of_line_totals _ Hnum).
  - reflexivity.
Defined.

(** * Shipping and total *)

(** C2.  The shipping fee is 0 when the subtotal is at least 100 and 25
    when it is below 100, the boundary 100 being free (99.99 pays 25,
    100.00 pays nothing), and the total is subtotal plus shipping fee. *)
Theorem shipping_fee_and_total :
  forall items,
    (greater_eq (subtotal items) 100%float = true ->
     shipping items = 0%float) /\
    (less_than (subtotal items) 100%float = true ->
     shipping items = 25%float) /\
    (subtotal items = 99.99%float -> shipping items = 25%float) /\
    (subtotal items = 100%float -> shipping items = 0%float) /\
    total items = (subtotal items + shipping items)%float.
Proof.
  intros items. unfold shipping, total. repeat split.
  - intros ->. reflexivity.
  - intros Hlt. unfold greater_eq.
    change ((100 <=? subtotal items)%float)
      with (less_eq 100%float (subtotal items)).
    now rewrite (less_than_not_greater_eq _ _ Hlt).
  - intros ->. reflexivity.
  - intros ->. reflexivity.
Qed.

(** The two carts of the test "should calculate shipping correctly", and
    one line priced 99.99. *)
Lemma shipping_at_the_boundary :
  let item p q := mkCartItem 1%float "Product"%string p q None None in
  (subtotal [item 50%float 1%float] = 50%float /\
   shipping [item 50%float 1%float] = 25%float /\
   total [item 50%float 1%float] = 75%float) /\
  (subtotal [item 50%float 2%float] = 100%float /\
   shipping [item 50%float 2%float] = 0%float /\
   total [item 50%float 2%float] = 100%float) /\
  (subtotal [item 99.99%float 1%float] = 99.99%float /\
   shipping [item 99.99%float 1%float] = 25%float).
Proof.
  cbv zeta.
  pose proof (shipping_fee_and_total
                [mkCartItem 1%float "Product"%string 50%float 1%float None None])
    as (_ & H50 & _ & _ & T50).
  pose proof (shipping_fee_and_total
                [mkCartItem 1%float "Product"%string 50%float 2%float None None])
    as (H100 & _ & _ & _ & T100).
  pose proof (shipping_fee_and_total
                [mkCartItem 1%float "Product"%string 99.99%float 1%float None None])
    as (_ & _ & H99 & _ & _).
  refine (conj (conj eq_refl (conj (H50 eq_refl) _))
            (conj (conj eq_refl (conj (H100 eq_refl) _))
               (conj eq_refl (H99 eq_refl)))).
  - rewrite T50, (H50 eq_refl). reflexivity.
  - rewrite T100, (H100 eq_refl). reflexivity.
Defined.

(** * The state updaters *)

Lemma addItem_existing product qty items existing :
  List.find (same_product (Product.productId product)) items = Some existing ->
  addItem product qty items
  = List.map (requantify (Product.productId product)
                (fun item => (quantity item + qty)%float)) items.
Proof. intros H. unfold addItem. now rewrite H. Qed.

Lemma addItem_fresh product qty items :
  List.find (same_product (Product.productId product)) items = None ->
  addItem product qty items
  = items ++ [mkCartItem (Product.productId product) (Product.name product)
                (Product.price product) qty (Product.imgName product)
                (Product.discount product)].
Proof. intros H. unfold addItem. now rewrite H. Qed.

Lemma updateQuantity_positive pid qty items :
  greater_than qty 0%float = true ->
  updateQuantity pid qty items
  = List.map (requantify pid (fun _ => qty)) items.
Proof.
  intros Hpos. unfold updateQuantity.
  now rewrite (less_than_not_greater_eq 0%float qty Hpos).
Qed.

Lemma same_product_requantify pid pid' f item :
  same_product pid' (requantify pid f item) = same_product pid' item.
Proof. unfold requantify. now destruct (same_product pid item). Qed.

Lemma filter_map_requantify pid pid' f items :
  List.filter (same_product pid') (List.map (requantify pid f) items)
  = List.map (requantify pid f) (List.filter (same_product pid') items).
Proof.
  induction items as [|item items IH]; [reflexivity|].
  cbn [List.map List.filter]. rewrite same_product_requantify, IH.
  now destruct (same_product pid' item).
Qed.

Lemma count_product_requantify pid pid' f items :
  count_product pid' (List.map (requantify pid f) items)
  = count_product pid' items.
Proof.
  unfold count_product. now rewrite filter_map_requantify, length_map.
Qed.

Lemma requantify_other pid f item :
  same_product pid item = false -> requantify pid f item = item.
Proof. unfold requantify. now intros ->. Qed.

Lemma map_requantify_absent pid f items :
  count_product pid items = 0 ->
  List.map (requantify pid f) items = items.
Proof.
  unfold count_product.
  induction items as [|item items IH]; [reflexivity|].
  cbn [List.filter List.map].
  destruct (same_product pid item) eqn:E; [discriminate|].
  intros H. now rewrite (requantify_other _ _ _ E), IH.
Qed.

Lemma nth_error_map_requantify pid f items i item :
  nth_error items i = Some item ->
  nth_error (List.map (requantify pid f) items) i
  = Some (requantify pid f item).
Proof. intros H. now rewrite nth_error_map, H. Qed.

Lemma find_none_count pid items :
  List.find (same_product pid) items = None <-> count_product pid items = 0.
Proof.
  unfold count_product.
  induction items as [|item items IH]; [easy|].
  cbn [List.find List.filter].
  destruct (same_product pid item); [easy | exact IH].
Qed.

Lemma find_of_singleton_filter pid items existing :
  List.filter (same_product pid) items = [existing] ->
  exists first, List.find (same_product pid) items = Some first.
Proof.
  intros H. destruct (List.find (same_product pid) items) as [x|] eqn:E.
  - now exists x.
  - apply find_none_count in E. unfold count_product in E.
    rewrite H in E. discriminate.
Qed.

Lemma count_product_app pid xs ys :
  count_product pid (xs ++ ys) = count_product pid xs + count_product pid ys.
Proof. unfold count_product. now rewrite List.filter_app, length_app. Qed.

Lemma count_product_zero pid items :
  count_product pid items = 0 <->
  forall item, In item items -> same_product pid item = false.
Proof.
  unfold count_product. induction items as [|item items IH].
  - split; [intros _ ? [] | reflexivity].
  - cbn [List.filter]. destruct (same_product pid item) eqn:E.
    + split; [discriminate|]. intros H.
      specialize (H item (or_introl eq_refl)). congruence.
    + rewrite IH. split.
      * intros H x [<-|Hx]; [exact E | now apply H].
      * intros H x Hx. apply H. now right.
Qed.

(** Items that are not [===] to [pid] are not [===] to a key that is. *)
Lemma count_product_zero_eq pid pid' items :
  strict_eq pid' pid = true ->
  count_product pid items = 0 -> count_product pid' items = 0.
Proof.
  intros Heq. rewrite !count_product_zero. intros H item Hin.
  specialize (H item Hin). unfold same_product in *.
  destruct (strict_eq (productId item) pid') eqn:E; [|reflexivity].
  rewrite (strict_eq_trans _ _ _ E Heq) in H. discriminate.
Qed.

Lemma removeItem_filter pid items :
  removeItem pid items
  = List.filter (fun item => negb (same_product pid item)) items.
Proof. reflexivity. Qed.

Lemma count_product_removeItem_le pid pid' items :
  count_product pid' (removeItem pid items) <= count_product pid' items.
Proof.
  unfold count_product, removeItem.
  induction items as [|item items IH]; [reflexivity|].
  cbn [List.filter].
  destruct (strict_ne (productId item) pid); cbn [List.filter];
    destruct (same_product pid' item); cbn [length]; lia.
Qed.

Lemma count_product_removeItem pid items :
  count_product pid (removeItem pid items) = 0.
Proof.
  apply count_product_zero. intros item Hin.
  unfold removeItem in Hin. apply List.filter_In in Hin.
  destruct Hin as [_ Hne]. unfold strict_ne in Hne. unfold same_product.
  now destruct (strict_eq (productId item) pid).
Qed.

Lemma removeItem_absent pid items :
  count_product pid items = 0 -> removeItem pid items = items.
Proof.
  unfold count_product, removeItem, strict_ne.
  induction items as [|item items IH]; [reflexivity|].
  cbn [List.filter]. unfold same_product at 1.
  destruct (strict_eq (productId item) pid) eqn:E; [discriminate|].
  cbn [negb]. intros H. now rewrite IH.
Qed.

Lemma filter_singleton_member pid items existing :
  List.filter (same_product pid) items = [existing] ->
  In existing items /\ same_product pid existing = true.
Proof.
  intros H. apply List.filter_In. rewrite H. now left.
Qed.

(** In a cart with unique keys, a line that carries a key is the only one
    that does. *)
Lemma unique_keys_singleton_filter pid items existing :
  unique_keys items ->
  In existing items -> same_product pid existing = true ->
  List.filter (same_product pid) items = [existing].
Proof.
  intros Huniq Hin Hsame. specialize (Huniq pid). unfold count_product in Huniq.
  assert (Hmem : In existing (List.filter (same_product pid) items))
    by (apply List.filter_In; now split).
  destruct (List.filter (same_product pid) items) as [|x [|y rest]].
  - destruct Hmem.
  - destruct Hmem as [->|[]]. reflexivity.
  - cbn [length] in Huniq. lia.
Qed.

(** C3 (amended).  When exactly one line item carries the product id,
    [addItem] with that id leaves exactly one, whose quantity is the old
    one plus the supplied one and whose other fields are untouched, and
    changes no other line; and two adds of one id to a cart that has none
    yield one line with quantity [q1 + q2] and the fields of the first
    add. *)
Theorem addItem_existing_accumulates :
  (forall items product qty existing,
      List.filter (same_product (Product.productId product)) items
      = [existing] ->
      let items' := addItem product qty items in
      let updated := with_quantity existing (quantity existing + qty)%float in
      List.filter (same_product (Product.productId product)) items'
      = [updated] /\
      count_product (Product.productId product) items' = 1 /\
      quantity updated = (quantity existing + qty)%float /\
      productId updated = productId existing /\
      name updated = name existing /\
      price updated = price existing /\
      discount updated = discount existing /\
      imageUrl updated = imageUrl existing /\
      length items' = length items /\
      (forall i item,
          nth_error items i = Some item ->
          same_product (Product.productId product) item = false ->
          nth_error items' i = Some item)) /\
  (forall items p1 q1 p2 q2,
      count_product (Product.productId p1) items = 0 ->
      strict_eq (Product.productId p2) (Product.productId p1) = true ->
      addItem p2 q2 (addItem p1 q1 items)
      = items ++ [mkCartItem (Product.productId p1) (Product.name p1)
                    (Product.price p1) (q1 + q2)%float (Product.imgName p1)
                    (Product.discount p1)]).
Proof.
  split.
  - intros items product qty existing Hone. cbv zeta.
    destruct (find_of_singleton_filter _ _ _ Hone) as [first Hfind].
    destruct (filter_singleton_member _ _ _ Hone) as [_ Hsame].
    rewrite (addItem_existing _ qty _ _ Hfind).
    assert (Hfilter :
      List.filter (same_product (Product.productId product))
        (List.map (requantify (Product.productId product)
                     (fun item => (quantity item + qty)%float)) items)
      = [with_quantity existing (quantity existing + qty)%float]).
    { rewrite filter_map_requantify, Hone. cbn [List.map].
      unfold requantify. now rewrite Hsame. }
    split; [exact Hfilter|].
    split; [unfold count_product; now rewrite Hfilter|].
    do 6 (split; [reflexivity|]).
    split; [apply length_map|].
    intros i item Hi Hother.
    rewrite (nth_error_map_requantify _ _ _ _ _ Hi).
    now rewrite (requantify_other _ _ _ Hother).
  - intros items p1 q1 p2 q2 Hfresh Hsame.
    apply find_none_count in Hfresh as Hnone.
    rewrite (addItem_fresh _ q1 _ Hnone).
    set (new1 := mkCartItem _ _ _ q1 _ _).
    assert (Hnew : same_product (Product.productId p2) new1 = true).
    { unfold same_product, new1. cbn [productId].
      now rewrite strict_eq_sym. }
    assert (Hitems : count_product (Product.productId p2) items = 0).
    { exact (count_product_zero_eq _ _ _ Hsame Hfresh). }
    destruct (List.find (same_product (Product.productId p2))
                (items ++ [new1])) as [x|] eqn:Hfind.
    + rewrite (addItem_existing _ q2 _ _ Hfind).
      rewrite List.map_app, (map_requantify_absent _ _ _ Hitems).
      cbn [List.map]. unfold requantify. rewrite Hnew. reflexivity.
    + apply find_none_count in Hfind. rewrite count_product_app in Hfind.
      unfold count_product at 2 in Hfind. cbn [List.filter] in Hfind.
      rewrite Hnew in Hfind. cbn [length] in Hfind. lia.
Qed.

(** The test "should update quantity when adding existing item": 2 then 3
    of product 1 give one line with quantity 5. *)
Lemma addItem_twice_in_the_test :
  let product := Product.mk 1%float "Test Product"%string 50%float None None in
  let once := addItem product 2%float [] in
  List.filter (same_product 1%float) once = [sample_item] /\
  addItem product 3%float once
  = [mkCartItem 1%float "Test Product"%string 50%float 5%float None None] /\
  count_product 1%float (addItem product 3%float once) = 1.
Proof.
  cbv zeta.
  pose (product := Product.mk 1%float "Test Product"%string 50%float None None).
  assert (Hone : List.filter (same_product (Product.productId product))
                   (addItem product 2%float []) = [sample_item])
    by reflexivity.
  destruct (proj1 addItem_existing_accumulates _ product 3%float _ Hone)
    as (_ & Hcount & _).
  pose proof (proj2 addItem_existing_accumulates [] product 2%float
                product 3%float eq_refl eq_refl) as Htwice.
  refine (conj Hone (conj _ Hcount)).
  exact Htwice.
Defined.

(** C3 as stated fails on a cart that holds the product id twice (a
    restored snapshot can): both lines are updated and both remain. *)
Lemma addItem_on_duplicate_lines :
  let a := mkCartItem 1%float "A"%string 10%float 1%float None None in
  let b := mkCartItem 1%float "B"%string 20%float 5%float None None in
  let product := Product.mk 1%float "C"%string 30%float None None in
  In a [a; b] /\ same_product (Product.productId product) a = true /\
  addItem product 3%float [a; b]
  = [with_quantity a 4%float; with_quantity b 8%float] /\
  count_product (Product.productId product) (addItem product 3%float [a; b])
  = 2.
Proof.
  cbv zeta. split; [now left|]. split; [reflexivity|].
  split; reflexivity.
Qed.

(** C9.  [removeItem] leaves no line with the key, keeps exactly the other
    lines, changes nothing when the key is absent, and a second call
    changes nothing more; it is a total function, so nothing is raised. *)
Theorem removeItem_removes_and_is_idempotent :
  forall items pid,
    count_product pid (removeItem pid items) = 0 /\
    (forall item,
        In item (removeItem pid items) <->
        In item items /\ same_product pid item = false) /\
    (count_product pid items = 0 -> removeItem pid items = items) /\
    (count_product pid items = 0 ->
     removeItem pid (removeItem pid items) = items) /\
    removeItem pid (removeItem pid items) = removeItem pid items.
Proof.
  intros items pid.
  split; [apply count_product_removeItem|].
  split.
  { intros item. unfold removeItem. rewrite List.filter_In.
    unfold strict_ne, same_product.
    destruct (strict_eq (productId item) pid); cbn [negb];
      intuition congruence. }
  split; [apply removeItem_absent|].
  split.
  { intros H. now rewrite !(removeItem_absent _ _ H). }
  apply removeItem_absent, count_product_removeItem.
Qed.

(** The test "should remove item from cart", then a second removal. *)
Lemma removeItem_in_the_test :
  removeItem 1%float [sample_item] = [] /\
  count_product 1%float [] = 0 /\
  removeItem 1%float (removeItem 1%float []) = [].
Proof.
  destruct (removeItem_removes_and_is_idempotent [] 1%float)
    as (_ & _ & _ & Htwice & _).
  refine (conj eq_refl (conj eq_refl (Htwice eq_refl))).
Defined.

(** C4.  [updateQuantity] with a quantity [<= 0] is [removeItem]: no line
    with the key remains and exactly the other lines are kept.  With a
    quantity [> 0] every line stays at its position; a line that carries
    the key then holds the new quantity and its id, name, price, discount
    and image as before, a line with another key is unchanged, and when
    no line carries the key the cart is left as it is (no line is
    created). *)
Theorem updateQuantity_removes_or_sets :
  forall items pid qty,
    (less_eq qty 0%float = true ->
     updateQuantity pid qty items = removeItem pid items /\
     count_product pid (updateQuantity pid qty items) = 0 /\
     (forall item,
         In item (updateQuantity pid qty items) <->
         In item items /\ same_product pid item = false)) /\
    (greater_than qty 0%float = true ->
     length (updateQuantity pid qty items) = length items /\
     (forall i item,
         nth_error items i = Some item ->
         exists item',
           nth_error (updateQuantity pid qty items) i = Some item' /\
           (same_product pid item = true ->
            quantity item' = qty /\
            productId item' = productId item /\
            name item' = name item /\
            price item' = price item /\
            discount item' = discount item /\
            imageUrl item' = imageUrl item) /\
           (same_product pid item = false -> item' = item)) /\
     (count_product pid items = 0 -> updateQuantity pid qty items = items)).
Proof.
  intros items pid qty. split.
  - intros Hle. unfold updateQuantity. rewrite Hle.
    split; [reflexivity|]. split; [apply count_product_removeItem|].
    intros item. unfold removeItem. rewrite List.filter_In.
    unfold strict_ne, same_product.
    destruct (strict_eq (productId item) pid); cbn [negb];
      intuition congruence.
  - intros Hpos. rewrite (updateQuantity_positive _ _ _ Hpos).
    split; [apply length_map|]. split.
    + intros i item Hi. exists (requantify pid (fun _ => qty) item).
      split; [now apply nth_error_map_requantify|].
      unfold requantify. destruct (same_product pid item).
      * split; [|discriminate]. intros _. cbn. repeat split.
      * split; [discriminate | reflexivity].
    + apply map_requantify_absent.
Qed.

(** The tests "should update item quantity" and "should remove item when
    updating quantity to 0", a negative quantity, and a key that no line
    carries. *)
Lemma updateQuantity_in_the_tests :
  updateQuantity 1%float 5%float [sample_item]
  = [mkCartItem 1%float "Test Product"%string 50%float 5%float None None] /\
  (exists item',
      nth_error (updateQuantity 1%float 5%float [sample_item]) 0 = Some item'
      /\ quantity item' = 5%float /\ name item' = "Test Product"%string) /\
  updateQuantity 1%float 0%float [sample_item] = [] /\
  updateQuantity 1%float (-1)%float [sample_item] = [] /\
  updateQuantity 7%float 5%float [sample_item] = [sample_item].
Proof.
  destruct (updateQuantity_removes_or_sets [sample_item] 1%float 5%float)
    as [_ Hset].
  destruct (updateQuantity_removes_or_sets [sample_item] 1%float 0%float)
    as [Hzero _].
  destruct (updateQuantity_removes_or_sets [sample_item] 1%float (-1)%float)
    as [Hneg _].
  destruct (updateQuantity_removes_or_sets [sample_item] 7%float 5%float)
    as [_ Hother].
  destruct (Hother eq_refl) as (_ & _ & Habsent).
  destruct (Hset eq_refl) as (_ & Hline & _).
  destruct (Hline 0 sample_item eq_refl) as (item' & Hnth & Hsame & _).
  destruct (Hsame eq_refl) as (Hqty & _ & Hname & _).
  refine (conj eq_refl (conj _ (conj _ (conj _ (Habsent eq_refl))))).
  - exists item'. exact (conj Hnth (conj Hqty Hname)).
  - rewrite (proj1 (Hzero eq_refl)). reflexivity.
  - rewrite (proj1 (Hneg eq_refl)). reflexivity.
Defined.

(** C10.  With a positive quantity [updateQuantity] changes nothing but
    quantities of lines carrying the key: the cart keeps its length, every
    line stays at its position, a line with another key is unchanged, and
    a line with the key keeps its id, name, price, discount and image. *)
Theorem updateQuantity_frame :
  forall items pid qty,
    1 <= count_product pid items ->
    greater_than qty 0%float = true ->
    length (updateQuantity pid qty items) = length items /\
    forall i item,
      nth_error items i = Some item ->
      exists item',
        nth_error (updateQuantity pid qty items) i = Some item' /\
        productId item' = productId item /\
        name item' = name item /\
        price item' = price item /\
        discount item' = discount item /\
        imageUrl item' = imageUrl item /\
        (same_product pid item = true -> quantity item' = qty) /\
        (same_product pid item = false -> item' = item).
Proof.
  intros items pid qty _ Hpos.
  rewrite (updateQuantity_positive _ _ _ Hpos).
  split; [apply length_map|].
  intros i item Hi. exists (requantify pid (fun _ => qty) item).
  split; [now apply nth_error_map_requantify|].
  unfold requantify. destruct (same_product pid item); cbn.
  - repeat split; congruence.
  - repeat split; congruence.
Qed.

(** A cart of two products; the quantity of the second is set to 4. *)
Lemma updateQuantity_frame_on_two_lines :
  let first := mkCartItem 1%float "Product 1"%string 50%float 2%float None None in
  let second := mkCartItem 2%float "Product 2"%string 30%float 1%float
                  (Some "p2.png"%string) (Some 0.25%float) in
  1 <= count_product 2%float [first; second] /\
  greater_than 4%float 0%float = true /\
  length (updateQuantity 2%float 4%float [first; second]) = 2 /\
  updateQuantity 2%float 4%float [first; second]
  = [first; with_quantity second 4%float].
Proof.
  cbv zeta.
  assert (Hin : 1 <= count_product 2%float
            [mkCartItem 1%float "Product 1"%string 50%float 2%float None None;
             mkCartItem 2%float "Product 2"%string 30%float 1%float
               (Some "p2.png"%string) (Some 0.25%float)])
    by (vm_compute; lia).
  destruct (updateQuantity_frame _ 2%float 4%float Hin eq_refl) as [Hlen _].
  exact (conj Hin (conj eq_refl (conj Hlen eq_refl))).
Defined.

(** * Clearing *)

(** C8 (amended).  After [clearCart] the cart is empty, the item count and
    the subtotal are 0, the shipping fee is the flat 25, and the total,
    subtotal plus shipping, is 25. *)
Theorem clearCart_totals :
  forall items,
    clearCart items = [] /\
    totalItems (clearCart items) = 0%float /\
    subtotal (clearCart items) = 0%float /\
    shipping (clearCart items) = 25%float /\
    total (clearCart items) = 25%float.
Proof. intros items. repeat split. Qed.

(** C8 as stated fails: the total after [clearCart] is 25, not 0. *)
Lemma clearCart_total_is_not_zero :
  total (clearCart [sample_item]) = 25%float /\
  total (clearCart [sample_item]) <> 0%float.
Proof.
  split; [reflexivity|].
  apply strict_ne_neq; reflexivity.
Qed.

(** * The key is unique under the updaters *)

Lemma unique_keys_nil : unique_keys [].
Proof. intros pid. cbn. lia. Qed.

Lemma unique_keys_requantify pid f items :
  unique_keys items -> unique_keys (List.map (requantify pid f) items).
Proof. intros H pid'. rewrite count_product_requantify. apply H. Qed.

Lemma unique_keys_addItem product qty items :
  unique_keys items -> unique_keys (addItem product qty items).
Proof.
  intros Huniq.
  destruct (List.find (same_product (Product.productId product)) items)
    as [existing|] eqn:Hfind.
  - rewrite (addItem_existing _ qty _ _ Hfind).
    now apply unique_keys_requantify.
  - rewrite (addItem_fresh _ qty _ Hfind). intros pid.
    rewrite count_product_app.
    unfold count_product at 2. cbn [List.filter].
    unfold same_product at 1. cbn [productId].
    destruct (strict_eq (Product.productId product) pid) eqn:E.
    + apply find_none_count in Hfind.
      assert (Hsym : strict_eq pid (Product.productId product) = true)
        by now rewrite strict_eq_sym.
      rewrite (count_product_zero_eq _ _ _ Hsym Hfind). cbn. lia.
    + specialize (Huniq pid). cbn [length]. lia.
Qed.

Lemma unique_keys_removeItem pid items :
  unique_keys items -> unique_keys (removeItem pid items).
Proof.
  intros H pid'. specialize (H pid').
  pose proof (count_product_removeItem_le pid pid' items). lia.
Qed.

Lemma unique_keys_updateQuantity pid qty items :
  unique_keys items -> unique_keys (updateQuantity pid qty items).
Proof.
  intros H. unfold updateQuantity. destruct (less_eq qty 0%float).
  - now apply unique_keys_removeItem.
  - now apply (unique_keys_requantify pid (fun _ => qty)).
Qed.

Section CartProviderFacts.

Variable JSON_parse : string -> ParseResult.
Variable JSON_stringify : list CartItem -> string.

(** The state a mount ends in is decided by the load effect. *)
Lemma mount_state store :
  state (mount JSON_parse JSON_stringify store)
  = match fx_setItems (load_effect JSON_parse store) with
    | Some st => st
    | None => Items []
    end.
Proof.
  unfold mount.
  destruct (fx_setItems (load_effect JSON_parse store)) as [[items|v]|];
    reflexivity.
Qed.

Lemma save_effect_lookup items store :
  localStorage.getItem CART_KEY (save_effect JSON_stringify items store)
  = Some (JSON_stringify items).
Proof.
  unfold save_effect, localStorage.getItem, localStorage.setItem.
  apply lookup_insert_eq.
Qed.

(** A persisted text that parses to anything but an array is adopted as
    the state: nothing is deleted or logged, and the render throws. *)
Lemma parsed_other_is_adopted store savedCart v :
  localStorage.getItem CART_KEY store = Some savedCart ->
  string_to_boolean savedCart = true ->
  JSON_parse savedCart = ParsedOther v ->
  load_effect JSON_parse store = mkEffect store (Some (NotAnArray v)) [] /\
  state (mount JSON_parse JSON_stringify store) = NotAnArray v /\
  render (state (mount JSON_parse JSON_stringify store)) = TypeError.
Proof.
  intros Hget Htruthy Hparse.
  assert (Hload : load_effect JSON_parse store
                  = mkEffect store (Some (NotAnArray v)) []).
  { unfold load_effect. now rewrite Hget, Htruthy, Hparse. }
  split; [exact Hload|].
  rewrite mount_state, Hload. split; reflexivity.
Qed.

(** A persisted text that parses to an array of line items becomes the
    cart, whatever the lines are. *)
Lemma parsed_items_are_adopted store savedCart items :
  localStorage.getItem CART_KEY store = Some savedCart ->
  string_to_boolean savedCart = true ->
  JSON_parse savedCart = ParsedItems items ->
  state (mount JSON_parse JSON_stringify store) = Items items.
Proof.
  intros Hget Htruthy Hparse. rewrite mount_state.
  unfold load_effect. now rewrite Hget, Htruthy, Hparse.
Qed.

(** C5 (amended).  Every updater keeps the product id unique: when the
    state a mount starts from has at most one line per product id, so has
    every cart reached from it by [addItem], [removeItem],
    [updateQuantity] and [clearCart]. *)
Theorem unique_keys_preserved :
  forall store,
    (forall restored,
        state (mount JSON_parse JSON_stringify store) = Items restored ->
        unique_keys restored) ->
    forall items,
      Reachable JSON_parse JSON_stringify store items -> unique_keys items.
Proof.
  intros store Hinit items Hreach.
  induction Hreach as [items Hmount | product qty items _ IH | pid items _ IH
                      | pid qty items _ IH | items _ IH].
  - now apply Hinit.
  - now apply unique_keys_addItem.
  - now apply unique_keys_removeItem.
  - now apply unique_keys_updateQuantity.
  - apply unique_keys_nil.
Qed.

(** C6 (amended).  A non-empty persisted text on which [JSON.parse] throws
    is discarded: the load effect logs one diagnostic and removes the
    entry, the cart starts empty, the render succeeds and the save effect
    writes the empty cart.  A missing entry and the empty text start an
    empty cart too, and the load effect leaves the store as it is. *)
Theorem malformed_snapshot_starts_empty :
  forall store,
    (forall savedCart,
        localStorage.getItem CART_KEY store = Some savedCart ->
        string_to_boolean savedCart = true ->
        JSON_parse savedCart = SyntaxError ->
        let loaded := load_effect JSON_parse store in
        let mounted := mount JSON_parse JSON_stringify store in
        state mounted = Items [] /\
        render (state mounted)
        = Rendered (mkContext [] 0%float 0%float 25%float 25%float) /\
        localStorage.getItem CART_KEY (fx_storage loaded) = None /\
        length (fx_console loaded) = 1 /\
        localStorage.getItem CART_KEY (storage mounted)
        = Some (JSON_stringify [])) /\
    (localStorage.getItem CART_KEY store = None
     \/ localStorage.getItem CART_KEY store = Some EmptyString ->
     state (mount JSON_parse JSON_stringify store) = Items [] /\
     fx_storage (load_effect JSON_parse store) = store /\
     fx_console (load_effect JSON_parse store) = []).
Proof.
  intros store. split.
  - intros savedCart Hget Htruthy Hthrow. cbv zeta.
    assert (Hload : load_effect JSON_parse store
                    = mkEffect (localStorage.removeItem CART_KEY store) None
                        ["Error loading cart from localStorage:"%string]).
    { unfold load_effect. now rewrite Hget, Htruthy, Hthrow. }
    assert (Hstate : state (mount JSON_parse JSON_stringify store) = Items []).
    { rewrite mount_state, Hload. reflexivity. }
    split; [exact Hstate|]. split; [now rewrite Hstate|].
    split.
    { rewrite Hload. cbn [fx_storage].
      unfold localStorage.getItem, localStorage.removeItem.
      apply lookup_delete_eq. }
    split; [now rewrite Hload|].
    unfold mount. rewrite Hload. cbn [fx_setItems storage].
    apply save_effect_lookup.
  - intros Hget.
    assert (Hload : load_effect JSON_parse store = mkEffect store None []).
    { unfold load_effect. destruct Hget as [-> | ->]; reflexivity. }
    rewrite mount_state, Hload. repeat split.
Qed.

End CartProviderFacts.

(** * The provider on concrete stores *)

(** A store without a cart: every cart built by the updaters has unique
    keys, here the one of the test that adds product 1 twice. *)
Lemma unique_keys_from_an_empty_store :
  let product := Product.mk 1%float "Test Product"%string 50%float None None in
  let cart := addItem product 3%float (addItem product 2%float []) in
  Reachable JSON_parse_samples JSON_stringify_samples empty cart /\
  unique_keys cart.
Proof.
  cbv zeta.
  assert (Hreach :
    Reachable JSON_parse_samples JSON_stringify_samples empty
      (addItem (Product.mk 1%float "Test Product"%string 50%float None None)
         3%float
         (addItem (Product.mk 1%float "Test Product"%string 50%float None None)
            2%float []))).
  { do 2 apply reach_addItem. apply reach_mount. reflexivity. }
  split; [exact Hreach|].
  apply (unique_keys_preserved JSON_parse_samples JSON_stringify_samples empty);
    [|exact Hreach].
  intros restored Hrestored.
  change (Items [] = Items restored) in Hrestored.
  injection Hrestored as <-. apply unique_keys_nil.
Defined.

(** C5 as stated fails: a persisted snapshot that lists product 1 twice is
    adopted as it is, and the mounted cart holds two lines with that id. *)
Lemma restored_snapshot_with_duplicate_keys :
  let store : gmap string string := {[ CART_KEY := duplicate_cart_text ]} in
  Reachable JSON_parse_samples JSON_stringify_samples store
    [sample_item; sample_item] /\
  count_product 1%float [sample_item; sample_item] = 2 /\
  ~ unique_keys [sample_item; sample_item].
Proof.
  cbv zeta. split; [|split].
  - apply reach_mount. vm_compute. reflexivity.
  - reflexivity.
  - intros H. specialize (H 1%float). vm_compute in H. lia.
Qed.

(** The test "should handle invalid localStorage data gracefully". *)
Lemma invalid_json_starts_empty :
  let store : gmap string string := {[ CART_KEY := "invalid-json"%string ]} in
  let loaded := load_effect JSON_parse_samples store in
  let mounted := mount JSON_parse_samples JSON_stringify_samples store in
  localStorage.getItem CART_KEY store = Some "invalid-json"%string /\
  JSON_parse_samples "invalid-json" = SyntaxError /\
  state mounted = Items [] /\
  localStorage.getItem CART_KEY (fx_storage loaded) = None /\
  localStorage.getItem CART_KEY (storage mounted) = Some "[]"%string.
Proof.
  cbv zeta.
  assert (Hget : localStorage.getItem CART_KEY
                   ({[ CART_KEY := "invalid-json"%string ]} : gmap string string)
                 = Some "invalid-json"%string) by reflexivity.
  assert (Hthrow : JSON_parse_samples "invalid-json" = SyntaxError)
    by reflexivity.
  destruct (proj1 (malformed_snapshot_starts_empty JSON_parse_samples
                     JSON_stringify_samples
                     {[ CART_KEY := "invalid-json"%string ]})
              "invalid-json"%string Hget eq_refl Hthrow)
    as (Hstate & _ & Hremoved & _ & Hsaved).
  exact (conj Hget (conj Hthrow (conj Hstate (conj Hremoved Hsaved)))).
Defined.

(** C6 as stated fails on a persisted text that parses but is not a
    cart.  The text of a JSON object is adopted as the state: the load
    effect deletes nothing and logs nothing, the cart is not the empty
    cart, and the render that follows throws.  (The save effect of the
    first render has by then overwritten the entry with the empty cart.) *)
Lemma unexpected_shape_is_adopted :
  let store : gmap string string := {[ CART_KEY := "{}"%string ]} in
  let loaded := load_effect JSON_parse_samples store in
  let mounted := mount JSON_parse_samples JSON_stringify_samples store in
  localStorage.getItem CART_KEY store = Some "{}"%string /\
  JSON_parse_samples "{}" = ParsedOther JObject /\
  localStorage.getItem CART_KEY (fx_storage loaded) = Some "{}"%string /\
  fx_console loaded = [] /\
  state mounted = NotAnArray JObject /\
  state mounted <> Items [] /\
  render (state mounted) = TypeError /\
  localStorage.getItem CART_KEY (storage mounted) = Some "[]"%string.
Proof.
  cbv zeta. repeat split. discriminate.
Qed.

(** * The JSON codec *)

(** One escaped character is read back as the character. *)
Lemma read_string_escape_char c tail :
  read_string (escape_char c ++ tail)
  = match read_string tail with
    | Some (s, r) => Some (c :: s, r)
    | None => None
    end.
Proof.
  destruct c as [[] [] [] [] [] [] [] []]; reflexivity.
Qed.

(** The escaped characters of a string, up to the closing quote, are
    read back as the string. *)
Lemma read_string_quoted s rest :
  read_string (flat_map escape_char s ++ char 34 :: rest) = Some (s, rest).
Proof.
  induction s as [|c s IH]; [reflexivity|].
  cbn [flat_map]. rewrite <- app_assoc, read_string_escape_char, IH.
  reflexivity.
Qed.

(** A run of characters satisfying [p] that is followed by one that does
    not is what [span] splits off. *)
Lemma span_app p t c rest :
  forallb p t = true -> p c = false ->
  span p (t ++ c :: rest) = (t, c :: rest).
Proof.
  intros Ht Hc. induction t as [|a t IH]; cbn in *.
  - now rewrite Hc.
  - apply andb_prop in Ht as [Ha Ht]. now rewrite Ha, (IH Ht).
Qed.

(** [span] splits the text, and the prefix satisfies [p]. *)
Lemma span_spec p cs a b :
  span p cs = (a, b) -> cs = (a ++ b)%list /\ forallb p a = true.
Proof.
  revert a b. induction cs as [|c cs IH]; cbn; intros a b H.
  - now inversion H.
  - destruct (p c) eqn:Hc.
    + destruct (span p cs) as [a' b'] eqn:Hs. inversion H; subst.
      destruct (IH a' b eq_refl) as [-> Hall]. cbn. now rewrite Hc.
    + now inversion H.
Qed.

(** Digits are characters of numbers. *)
Lemma is_digit_number_char c : is_digit c = true -> is_number_char c = true.
Proof. unfold is_number_char. now intros ->. Qed.

Lemma digits_number_chars ds :
  forallb is_digit ds = true -> forallb is_number_char ds = true.
Proof.
  induction ds as [|d ds IH]; cbn; [easy|].
  intros H. apply andb_prop in H as [Hd H].
  now rewrite (is_digit_number_char _ Hd), IH.
Qed.

Lemma number_chars_app a b : number_chars a -> number_chars b -> number_chars (a ++ b).
Proof. unfold number_chars. intros Ha Hb. now rewrite forallb_app, Ha, Hb. Qed.

(** Each part of a number literal is made of characters of numbers. *)
Lemma literal_int_chars cs i r :
  literal_int cs = Some (i, r) ->
  cs = (i ++ r)%list /\ number_chars i /\ i <> [].
Proof.
  unfold literal_int. destruct cs as [|c cs]; [discriminate|].
  assert (Hspan : (if is_digit c then Some (span is_digit (c :: cs)) else None) = Some (i, r) ->
                  c :: cs = (i ++ r)%list /\ number_chars i /\ i <> []).
  { destruct (is_digit c) eqn:Hc; [|discriminate]. intros H.
    assert (Hs : span is_digit (c :: cs) = (i, r)) by congruence.
    destruct (span_spec _ _ _ _ Hs) as [Heq Hall]. split; [exact Heq|].
    split; [now apply digits_number_chars|].
    cbn in Hs. rewrite Hc in Hs. destruct (span is_digit cs). now inversion Hs. }
  destruct c as [[] [] [] [] [] [] [] []]; try exact Hspan.
  intros H. inversion H; subst. repeat split. discriminate.
Qed.

Lemma literal_frac_chars cs f r :
  literal_frac cs = Some (f, r) ->
  exists pre, cs = (pre ++ r)%list /\ number_chars pre.
Proof.
  unfold literal_frac. destruct cs as [|c cs].
  - intros H. inversion H. now exists [].
  - assert (Hother : Some (@nil ascii, c :: cs) = Some (f, r) ->
                     exists pre, c :: cs = (pre ++ r)%list /\ number_chars pre).
    { intros H. inversion H. now exists []. }
    destruct c as [[] [] [] [] [] [] [] []]; try exact Hother.
    destruct (span is_digit cs) as [ds rest] eqn:Hs.
    destruct (span_spec _ _ _ _ Hs) as [-> Hall].
    destruct ds as [|d ds]; [discriminate|]. intros H. inversion H; subst.
    exists ("."%char :: d :: ds). split; [reflexivity|].
    apply (number_chars_app ["."%char]); [reflexivity|].
    now apply digits_number_chars.
Qed.

Lemma literal_exp_digits_chars neg cs e r :
  literal_exp_digits neg cs = Some (e, r) ->
  exists pre, cs = (pre ++ r)%list /\ number_chars pre.
Proof.
  unfold literal_exp_digits.
  destruct (span is_digit cs) as [ds rest] eqn:Hs.
  destruct (span_spec _ _ _ _ Hs) as [-> Hall].
  destruct ds as [|d ds]; [discriminate|]. intros H. inversion H; subst.
  exists (d :: ds). split; [reflexivity|]. now apply digits_number_chars.
Qed.

Lemma literal_exp_chars cs e r :
  literal_exp cs = Some (e, r) ->
  exists pre, cs = (pre ++ r)%list /\ number_chars pre.
Proof.
  unfold literal_exp. destruct cs as [|c cs].
  - intros H. inversion H. now exists [].
  - destruct (Ascii.eqb c "e" || Ascii.eqb c "E")%bool eqn:He.
    + assert (Hc : number_chars [c]).
      { apply orb_prop in He as [He|He]; apply Ascii.eqb_eq in He; subst; reflexivity. }
      assert (Hplain : literal_exp_digits false cs = Some (e, r) ->
                       exists pre, c :: cs = (pre ++ r)%list /\ number_chars pre).
      { intros H. destruct (literal_exp_digits_chars _ _ _ _ H) as (pre & -> & Hpre).
        exists (c :: pre). split; [reflexivity|]. now apply (number_chars_app [c]). }
      destruct cs as [|s cs]; [exact Hplain|].
      assert (Hsign : forall neg, number_chars [s] ->
                literal_exp_digits neg cs = Some (e, r) ->
                exists pre, c :: s :: cs = (pre ++ r)%list /\ number_chars pre).
      { intros neg Hs H. destruct (literal_exp_digits_chars _ _ _ _ H) as (pre & -> & Hpre).
        exists (c :: s :: pre). split; [reflexivity|].
        apply (number_chars_app [c]); [exact Hc|]. now apply (number_chars_app [s]). }
      destruct s as [[] [] [] [] [] [] [] []]; try exact Hplain;
        apply Hsign; reflexivity.
    + intros H. inversion H. now exists [].
Qed.

Lemma literal_body_chars neg cs x :
  literal_body neg cs = Some x -> number_chars cs /\ cs <> [].
Proof.
  unfold literal_body.
  destruct (literal_int cs) as [[i cs2]|] eqn:Hi; [|discriminate].
  destruct (literal_frac cs2) as [[f cs3]|] eqn:Hf; [|discriminate].
  destruct (literal_exp cs3) as [[e [|? ?]]|] eqn:He; try discriminate.
  intros _.
  destruct (literal_int_chars _ _ _ Hi) as (-> & Hic & Hne).
  destruct (literal_frac_chars _ _ _ Hf) as (pf & -> & Hpf).
  destruct (literal_exp_chars _ _ _ He) as (pe & -> & Hpe).
  split.
  - apply number_chars_app; [exact Hic|]. apply number_chars_app; [exact Hpf|].
    now apply number_chars_app.
  - destruct i; [now destruct Hne|discriminate].
Qed.

(** A text that denotes a number is not empty and is made of characters
    of numbers only: the lexer takes it as one token. *)
Lemma literal_value_chars t x :
  literal_value t = Some x -> number_chars t /\ t <> [].
Proof.
  destruct t as [|c t].
  - intros H. exact (literal_body_chars false [] x H).
  - assert (Hplain : literal_body false (c :: t) = Some x ->
                     number_chars (c :: t) /\ c :: t <> [])
      by apply literal_body_chars.
    assert (Hminus : literal_body true t = Some x ->
                     number_chars ("-"%char :: t) /\ "-"%char :: t <> []).
    { intros H. destruct (literal_body_chars _ _ _ H) as [Hc _].
      split; [|discriminate]. now apply (number_chars_app ["-"%char]). }
    destruct c as [[] [] [] [] [] [] [] []];
      first [exact Hplain | exact Hminus].
Qed.

(** Skipping the characters of a token resumes after it. *)
Lemma lex_skip a rest : lex (List.length a) (a ++ rest) = lex 0 rest.
Proof. induction a as [|c a IH]; [reflexivity|exact IH]. Qed.

(** A quoted string, whatever its characters, is read back as one string
    token. *)
Lemma lex_string s rest :
  lex 0 (quote_chars s ++ rest) = cons_token (TString s) (lex 0 rest).
Proof.
  unfold quote_chars. rewrite <- app_comm_cons, <- app_assoc.
  change (lex 0 (char 34 :: flat_map escape_char s ++ [char 34] ++ rest))
    with (match read_string (flat_map escape_char s ++ char 34 :: rest) with
          | Some (s', rest') =>
              cons_token (TString s')
                (lex (List.length (flat_map escape_char s ++ char 34 :: rest)
                      - List.length rest')
                   (flat_map escape_char s ++ char 34 :: rest))
          | None => None
          end).
  rewrite read_string_quoted. f_equal.
  change (char 34 :: rest) with ([char 34] ++ rest)%list.
  rewrite app_assoc.
  replace (List.length ((flat_map escape_char s ++ [char 34]) ++ rest) - List.length rest)
    with (List.length (flat_map escape_char s ++ [char 34]))
    by (rewrite (length_app _ rest); lia).
  apply lex_skip.
Qed.

(** On a character of a number the lexer reads a number. *)
Lemma lex_number_char c rest :
  is_number_char c = true ->
  lex 0 (c :: rest)
  = let (text, rest') := span is_number_char (c :: rest) in
    match literal_value text with
    | Some x =>
        cons_token (TNumber x) (lex (List.length rest - List.length rest') rest)
    | None => None
    end.
Proof.
  destruct c as [[] [] [] [] [] [] [] []]; intros H;
    first [discriminate H | reflexivity].
Qed.

(** A number literal followed by a character that is not part of a
    number is one number token. *)
Lemma lex_number t x c rest :
  literal_value t = Some x -> is_number_char c = false ->
  lex 0 (t ++ c :: rest) = cons_token (TNumber x) (lex 0 (c :: rest)).
Proof.
  intros Hlit Hc. destruct (literal_value_chars _ _ Hlit) as [Hall Hne].
  destruct t as [|d t]; [now destruct Hne|].
  assert (Hd : is_number_char d = true).
  { unfold number_chars in Hall. cbn in Hall. now apply andb_prop in Hall. }
  rewrite <- app_comm_cons, (lex_number_char d _ Hd), app_comm_cons.
  rewrite (span_app _ _ _ _ Hall Hc), Hlit. f_equal.
  replace (List.length (t ++ c :: rest) - List.length (c :: rest))
    with (List.length t) by (rewrite length_app; lia).
  apply lex_skip.
Qed.

Lemma lex_json_number x c rest :
  json_number x = true -> is_number_char c = false ->
  lex 0 (number_text x ++ c :: rest) = cons_token (TNumber x) (lex 0 (c :: rest)).
Proof.
  unfold json_number, reads_back. intros Hx Hc.
  destruct (literal_value (number_text x)) as [y|] eqn:Hlit; [|discriminate].
  apply FloatAxioms.Leibniz.eqb_spec in Hx. subst y.
  now apply lex_number.
Qed.

(** The punctuation. *)
Lemma lex_punctuation rest :
  lex 0 ("["%char :: rest) = cons_token TLBracket (lex 0 rest) /\
  lex 0 ("]"%char :: rest) = cons_token TRBracket (lex 0 rest) /\
  lex 0 ("{"%char :: rest) = cons_token TLBrace (lex 0 rest) /\
  lex 0 ("}"%char :: rest) = cons_token TRBrace (lex 0 rest) /\
  lex 0 (":"%char :: rest) = cons_token TColon (lex 0 rest) /\
  lex 0 (","%char :: rest) = cons_token TComma (lex 0 rest).
Proof. repeat split. Qed.

(** A property with a number, and one with a string. *)
Lemma lex_number_member k x c rest :
  json_number x = true -> is_number_char c = false ->
  lex 0 (member_text k (number_text x) ++ c :: rest)
  = tokens_then [TString (key k); TColon; TNumber x] (lex 0 (c :: rest)).
Proof.
  intros Hx Hc. unfold member_text.
  rewrite <- app_assoc, lex_string, <- app_comm_cons.
  destruct (lex_punctuation (number_text x ++ c :: rest)) as (_ & _ & _ & _ & -> & _).
  rewrite (lex_json_number _ _ _ Hx Hc).
  now destruct (lex 0 (c :: rest)).
Qed.

Lemma lex_string_member k s rest :
  lex 0 (member_text k (string_text s) ++ rest)
  = tokens_then [TString (key k); TColon; TString (list_ascii_of_string s)]
      (lex 0 rest).
Proof.
  unfold member_text, string_text.
  rewrite <- app_assoc, lex_string, <- app_comm_cons.
  destruct (lex_punctuation (quote_chars (list_ascii_of_string s) ++ rest))
    as (_ & _ & _ & _ & -> & _).
  rewrite lex_string. now destruct (lex 0 rest).
Qed.

Lemma tokens_then_app a b rest :
  tokens_then a (tokens_then b rest) = tokens_then (a ++ b) rest.
Proof. destruct rest; cbn; [|reflexivity]. now rewrite app_assoc. Qed.

Lemma cons_token_then t rest : cons_token t rest = tokens_then [t] rest.
Proof. reflexivity. Qed.

Lemma lex_comma rest : lex 0 (","%char :: rest) = tokens_then [TComma] (lex 0 rest).
Proof. reflexivity. Qed.

Lemma lex_rbrace rest : lex 0 ("}"%char :: rest) = tokens_then [TRBrace] (lex 0 rest).
Proof. reflexivity. Qed.

Lemma lex_lbrace rest : lex 0 ("{"%char :: rest) = tokens_then [TLBrace] (lex 0 rest).
Proof. reflexivity. Qed.

(** The text of a line item, with the text that follows it. *)
Lemma item_text_shape (a b c d e f rest : list ascii) :
  ("{"%char :: a ++ ","%char :: b ++ ","%char :: c ++ ","%char :: d ++ e ++ f
     ++ ["}"%char]) ++ rest
  = "{"%char :: a ++ ","%char :: b ++ ","%char :: c ++ ","%char :: d ++ e ++ f
      ++ "}"%char :: rest.
Proof.
  cbn [app]. f_equal. rewrite <- app_assoc. f_equal. cbn [app]. f_equal.
  rewrite <- app_assoc. f_equal. cbn [app]. f_equal.
  rewrite <- app_assoc. f_equal. cbn [app]. f_equal.
  rewrite <- app_assoc. f_equal. rewrite <- app_assoc. f_equal.
  rewrite <- app_assoc. reflexivity.
Qed.

(** The tokens of the text written for a line item. *)
Lemma lex_item item rest :
  valid_item item = true ->
  lex 0 (item_text item ++ rest) = tokens_then (item_tokens item) (lex 0 rest).
Proof.
  destruct item as [pid nm pr qty img dis]. unfold valid_item, item_text, item_tokens.
  cbn [productId name price quantity imageUrl discount].
  intros H. apply andb_prop in H as [H Hdis]. apply andb_prop in H as [H Hqty].
  apply andb_prop in H as [Hpid Hpr].
  rewrite item_text_shape.
  rewrite lex_lbrace.
  rewrite (lex_number_member "productId" pid ","%char _ Hpid eq_refl), lex_comma.
  rewrite lex_string_member, lex_comma.
  rewrite (lex_number_member "price" pr ","%char _ Hpr eq_refl), lex_comma.
  destruct img as [url|], dis as [d|]; cbn [app].
  - rewrite (lex_number_member "quantity" qty ","%char _ Hqty eq_refl), lex_comma.
    rewrite lex_string_member, lex_comma.
    rewrite (lex_number_member "discount" d "}"%char _ Hdis eq_refl), lex_rbrace.
    rewrite !tokens_then_app. reflexivity.
  - rewrite (lex_number_member "quantity" qty ","%char _ Hqty eq_refl), lex_comma.
    rewrite lex_string_member, lex_rbrace.
    rewrite !tokens_then_app. reflexivity.
  - rewrite (lex_number_member "quantity" qty ","%char _ Hqty eq_refl), lex_comma.
    rewrite (lex_number_member "discount" d "}"%char _ Hdis eq_refl), lex_rbrace.
    rewrite !tokens_then_app. reflexivity.
  - rewrite (lex_number_member "quantity" qty "}"%char _ Hqty eq_refl), lex_rbrace.
    rewrite !tokens_then_app. reflexivity.
Qed.

(** The tokens of the text written for the lines of a cart. *)
Lemma lex_items items rest :
  valid_snapshot items = true ->
  lex 0 (items_text items ++ "]"%char :: rest)
  = tokens_then (items_tokens items ++ [TRBracket]) (lex 0 rest).
Proof.
  induction items as [|item items IH]; intros Hvalid.
  - reflexivity.
  - cbn [valid_snapshot forallb] in Hvalid.
    apply andb_prop in Hvalid as [Hitem Hvalid]. specialize (IH Hvalid).
    destruct items as [|next items].
    + cbn [items_text items_tokens]. rewrite (lex_item _ _ Hitem).
      change (lex 0 ("]"%char :: rest)) with (tokens_then [TRBracket] (lex 0 rest)).
      apply tokens_then_app.
    + change (items_text (item :: next :: items))
        with (item_text item ++ ","%char :: items_text (next :: items))%list.
      change (items_tokens (item :: next :: items))
        with (item_tokens item ++ TComma :: items_tokens (next :: items))%list.
      rewrite <- app_assoc, (lex_item _ _ Hitem), <- app_comm_cons, lex_comma, IH.
      rewrite !tokens_then_app. f_equal.
      now rewrite <- !app_assoc.
Qed.

(** The tokens of a line item parse to its value, with eight units of
    fuel or more. *)
Lemma parse_item f item rest :
  8 <= f ->
  parse_value f (item_tokens item ++ rest) = Some (item_value item, rest).
Proof.
  intros Hf. do 8 (destruct f as [|f]; [lia|]).
  destruct item as [pid nm pr qty [url|] [d|]]; reflexivity.
Qed.

Lemma parse_items items :
  forall f rest,
    items <> [] -> List.length items + 8 <= f ->
    parse_elements f (items_tokens items ++ TRBracket :: rest)
    = Some (map item_value items, rest).
Proof.
  induction items as [|item items IH]; intros f rest Hne Hf; [now destruct Hne|].
  destruct f as [|f]; [cbn in Hf; lia|].
  cbn [List.length] in Hf.
  destruct items as [|next items].
  - cbn [items_tokens map parse_elements].
    rewrite parse_item by lia. reflexivity.
  - change (items_tokens (item :: next :: items))
      with (item_tokens item ++ TComma :: items_tokens (next :: items))%list.
    cbn [parse_elements]. rewrite <- app_assoc, parse_item by lia.
    rewrite <- app_comm_cons, IH by (try discriminate; lia).
    reflexivity.
Qed.

(** A line item has at least 17 tokens, so the fuel [JSON_parse_value]
    starts with is enough. *)
Lemma item_tokens_length item : 17 <= List.length (item_tokens item).
Proof.
  destruct item as [pid nm pr qty [url|] [d|]]; cbn; lia.
Qed.

Lemma items_tokens_length items :
  17 * List.length items <= List.length (items_tokens items).
Proof.
  induction items as [|item items IH]; [cbn; lia|].
  destruct items as [|next items].
  - cbn [items_tokens List.length]. pose proof (item_tokens_length item). lia.
  - change (items_tokens (item :: next :: items))
      with (item_tokens item ++ TComma :: items_tokens (next :: items))%list.
    rewrite length_app. cbn [List.length] in *.
    pose proof (item_tokens_length item). lia.
Qed.

Lemma items_tokens_head item items :
  exists ts, items_tokens (item :: items) = TLBrace :: ts.
Proof. destruct items; eexists; reflexivity. Qed.

(** The value written for a line item is read as that line item. *)
Lemma as_item_value item : as_item (item_value item) = Some item.
Proof.
  destruct item as [pid nm pr qty [url|] [d|]]; cbn;
    rewrite ?string_of_list_ascii_of_string; reflexivity.
Qed.

Lemma as_items_values items : as_items (map item_value items) = Some items.
Proof.
  induction items as [|item items IH]; [reflexivity|].
  cbn [map as_items]. now rewrite as_item_value, IH.
Qed.

(** Parsing the text written for a cart gives the array of the values of
    its lines. *)
Lemma JSON_parse_value_stringify items :
  valid_snapshot items = true ->
  JSON_parse_value (JSON_stringify_model items)
  = Some (VArray (map item_value items)).
Proof.
  intros Hvalid. unfold JSON_parse_value, JSON_stringify_model.
  rewrite list_ascii_of_string_of_list_ascii.
  change (lex 0 ("["%char :: items_text items ++ ["]"%char]))
    with (tokens_then [TLBracket] (lex 0 (items_text items ++ ["]"%char]))).
  rewrite (lex_items items [] Hvalid).
  cbn [lex tokens_then option_map app].
  destruct items as [|item items]; [reflexivity|].
  pose proof (items_tokens_length (item :: items)) as Hlen.
  destruct (items_tokens_head item items) as [ts Hts].
  rewrite app_nil_r.
  cbn [List.length parse_value]. rewrite Hts, <- app_comm_cons, app_comm_cons, <- Hts.
  rewrite parse_items; [reflexivity|discriminate|].
  rewrite length_app. cbn [List.length] in *. lia.
Qed.

(** The codec is lossless on the snapshots a JSON text can carry: every
    line comes back, in order, with every field. *)
Lemma JSON_parse_model_stringify items :
  valid_snapshot items = true ->
  JSON_parse_model (JSON_stringify_model items) = Some (ParsedItems items).
Proof.
  intros Hvalid. unfold JSON_parse_model.
  rewrite (JSON_parse_value_stringify _ Hvalid), as_items_values. reflexivity.
Qed.

(** The text written for a cart is never the empty string. *)
Lemma JSON_stringify_model_truthy items :
  string_to_boolean (JSON_stringify_model items) = true.
Proof. reflexivity. Qed.

(** A number that is the one its text denotes is finite, and is not the
    negative zero. *)
Lemma json_number_is_finite x :
  json_number x = true ->
  match Prim2SF x with
  | S754_zero false | S754_finite _ _ _ => True
  | _ => False
  end.
Proof.
  unfold json_number, number_text.
  destruct (Prim2SF x) as [[]|s| |s m e] eqn:Hx; try exact (fun _ => I);
    try discriminate.
  change (reads_back ["0"%char] x) with (PrimFloat.Leibniz.eqb 0%float x).
  intros H. apply FloatAxioms.Leibniz.eqb_spec in H. subst x. discriminate Hx.
Qed.

(** A conforming codec gives back every snapshot a JSON text can carry. *)
Lemma conforming_codec_round_trips JSON_parse JSON_stringify items :
  JSON_conforms JSON_parse JSON_stringify ->
  valid_snapshot items = true ->
  JSON_round_trips JSON_parse JSON_stringify items.
Proof.
  intros [Hparse Hstringify] Hvalid. unfold JSON_round_trips.
  rewrite Hstringify. split.
  - apply Hparse. now apply JSON_parse_model_stringify.
  - apply JSON_stringify_model_truthy.
Qed.

(** The codec of the model conforms to itself, whatever stands for the
    results the model is silent about. *)
Lemma JSON_parse_within_conforms outside :
  JSON_conforms (JSON_parse_within outside) JSON_stringify_model.
Proof.
  split; [|reflexivity].
  intros text result H. unfold JSON_parse_within. now rewrite H.
Qed.

(** On the texts and the carts of the test-suite the codec is the one
    tabulated above. *)
Lemma sample_codec_is_the_codec :
  Forall (fun text => JSON_parse_model text = Some (JSON_parse_samples text))
    ["[]"; sample_cart_text; duplicate_cart_text; "{}"; "null";
     "invalid-json"]%string /\
  Forall (fun cart => JSON_stringify_model cart = JSON_stringify_samples cart)
    [[]; [sample_item]; [sample_item; sample_item]].
Proof.
  split; repeat constructor; vm_compute; reflexivity.
Qed.

(** The quantities the page reaches by its increase button, from 0 to
    200, are numbers a JSON text carries. *)
Lemma counted_quantities_are_json_numbers :
  forallb (fun n => json_number (Nat.iter n (fun q => q + 1)%float 0%float))
    (seq 0 201) = true.
Proof. vm_compute. reflexivity. Qed.

(** So are the prices and the discount of the products in the tests. *)
Lemma test_prices_are_json_numbers :
  forallb json_number
    [129.99; 199.99; 89.99; 50; 30; 100; 150; 0.25]%float = true.
Proof. vm_compute. reflexivity. Qed.




(** * More on the totals *)

Module MoreNumberFacts.

(** A number that is at least 100 is not a zero. *)
Lemma at_least_100_is_not_zero (a : number) :
  greater_eq a 100%float = true -> PrimFloat.is_zero a = false.
Proof.
  unfold greater_eq, PrimFloat.is_zero.
  rewrite FloatAxioms.leb_spec, FloatAxioms.eqb_spec.
  change (Prim2SF zero) with (S754_zero false).
  replace (Prim2SF 100%float) with (S754_finite false 7036874417766400 (-46))
    by (vm_compute; reflexivity).
  destruct (Prim2SF a) as [[]|[]| |[] m e]; try discriminate; reflexivity.
Qed.

(** Adding [0] to a number that is not a zero gives the number back. *)
Lemma add_zero_r (a : number) :
  PrimFloat.is_zero a = false -> (a + 0 = a)%float.
Proof.
  unfold PrimFloat.is_zero. rewrite FloatAxioms.eqb_spec.
  change (Prim2SF zero) with (S754_zero false).
  intros Hnz. apply Prim2SF_inj. rewrite FloatAxioms.add_spec.
  change (Prim2SF 0%float) with (S754_zero false).
  destruct (Prim2SF a) as [s|s| |s m e]; try reflexivity.
  discriminate.
Qed.

End MoreNumberFacts.

Import MoreNumberFacts.

Lemma shipping_cases items :
  (greater_eq (subtotal items) 100%float = true /\ shipping items = 0%float)
  \/ (greater_eq (subtotal items) 100%float = false
      /\ shipping items = 25%float).
Proof.
  unfold shipping.
  destruct (greater_eq (subtotal items) 100%float); [left | right]; easy.
Qed.

(** X1.  The shipping fee is never anything but 0 or 25; with free
    shipping the total is the subtotal itself, bit for bit, and otherwise
    it is the subtotal plus 25. *)
Theorem total_with_and_without_shipping :
  forall items,
    (shipping items = 0%float \/ shipping items = 25%float) /\
    (greater_eq (subtotal items) 100%float = true ->
     total items = subtotal items) /\
    (greater_eq (subtotal items) 100%float = false ->
     total items = (subtotal items + 25)%float).
Proof.
  intros items. unfold total.
  destruct (shipping_cases items) as [[Hge ->]|[Hlt ->]].
  - split; [now left|]. split; [|congruence].
    intros _. now apply add_zero_r, at_least_100_is_not_zero.
  - split; [now right|]. split; [congruence | reflexivity].
Qed.

(** The second cart of the test "should calculate shipping correctly". *)
Lemma total_of_a_free_shipping_cart :
  let cart := [mkCartItem 1%float "Product"%string 50%float 2%float None None] in
  greater_eq (subtotal cart) 100%float = true /\
  total cart = subtotal cart.
Proof.
  cbv zeta.
  destruct (total_with_and_without_shipping
              [mkCartItem 1%float "Product"%string 50%float 2%float None None])
    as (_ & Hfree & _).
  exact (conj eq_refl (Hfree eq_refl)).
Defined.

(** * Adding products that are not in the cart *)

Lemma addItem_new_line product qty items :
  count_product (Product.productId product) items = 0 ->
  addItem product qty items = items ++ [new_line product qty].
Proof.
  intros Hfresh. apply find_none_count in Hfresh.
  now rewrite (addItem_fresh _ qty _ Hfresh).
Qed.

Lemma reduce_app {A B : Type} (f : B -> A -> B) (init : B) (xs ys : list A) :
  reduce f init (xs ++ ys) = reduce f (reduce f init xs) ys.
Proof. unfold reduce. apply fold_left_app. Qed.

(** X2.  [addItem] of a product whose id no line carries appends one line
    after the existing ones, with the quantity as given (no check that it
    is positive) and the fields of the product; the item count grows by
    the quantity and the subtotal by the line's price times the
    quantity. *)
Theorem addItem_of_a_new_product :
  forall items product qty,
    count_product (Product.productId product) items = 0 ->
    let items' := addItem product qty items in
    items' = items ++ [new_line product qty] /\
    length items' = S (length items) /\
    count_product (Product.productId product) items'
    = (if strict_eq (Product.productId product) (Product.productId product)
       then 1 else 0) /\
    totalItems items' = (totalItems items + qty)%float /\
    subtotal items'
    = (subtotal items + itemPrice (new_line product qty) * qty)%float.
Proof.
  intros items product qty Hfresh. cbv zeta.
  rewrite (addItem_new_line _ qty _ Hfresh).
  split; [reflexivity|].
  split; [rewrite length_app; cbn; lia|].
  split.
  { rewrite count_product_app, Hfresh. unfold count_product.
    cbn [List.filter]. unfold same_product at 1. cbn [productId new_line].
    now destruct (strict_eq _ _). }
  split.
  - unfold totalItems. now rewrite reduce_app.
  - unfold subtotal. now rewrite reduce_app.
Qed.

(** The test "should add item to cart", and an add of quantity 0. *)
Lemma addItem_to_the_empty_cart :
  let product := Product.mk 1%float "Test Product"%string 50%float
                   (Some "test.jpg"%string) None in
  addItem product 2%float []
  = [mkCartItem 1%float "Test Product"%string 50%float 2%float
       (Some "test.jpg"%string) None] /\
  totalItems (addItem product 2%float []) = 2%float /\
  subtotal (addItem product 2%float []) = 100%float /\
  addItem product 0%float [] = [new_line product 0%float].
Proof.
  cbv zeta.
  pose (product := Product.mk 1%float "Test Product"%string 50%float
                     (Some "test.jpg"%string) None).
  destruct (addItem_of_a_new_product [] product 2%float eq_refl)
    as (Hcart & _ & _ & Hcount & Hsub).
  destruct (addItem_of_a_new_product [] product 0%float eq_refl)
    as (Hzero & _).
  subst product.
  refine (conj Hcart (conj _ (conj _ Hzero))).
  - rewrite Hcount. reflexivity.
  - rewrite Hsub. reflexivity.
Defined.

Lemma distinct_ids_not_in pid pids :
  distinct_ids (pid :: pids) ->
  forall other, In other pids -> strict_eq pid other = false.
Proof.
  intros [H _] other Hin. rewrite strict_eq_sym. now apply H.
Qed.

Lemma add_all_appends adds : forall items,
  (forall add, In add adds ->
               count_product (Product.productId (fst add)) items = 0) ->
  distinct_ids (List.map (fun add => Product.productId (fst add)) adds) ->
  add_all adds items
  = items ++ List.map (fun add => new_line (fst add) (snd add)) adds.
Proof.
  induction adds as [|add adds IH]; intros items Hfresh Hdistinct.
  - cbn. now rewrite app_nil_r.
  - cbn [add_all fold_left List.map].
    rewrite (addItem_new_line _ _ _ (Hfresh add (or_introl eq_refl))).
    change (fold_left _ adds ?l) with (add_all adds l).
    rewrite IH.
    + now rewrite <- app_assoc.
    + intros other Hin. rewrite count_product_app.
      rewrite (Hfresh other (or_intror Hin)).
      unfold count_product. cbn [List.filter].
      unfold same_product at 1. cbn [productId new_line].
      cbn [List.map] in Hdistinct.
      rewrite (distinct_ids_not_in _ _ Hdistinct
                 (Product.productId (fst other))); [reflexivity|].
      apply (List.in_map (fun add => Product.productId (fst add))). exact Hin.
    + cbn [List.map] in Hdistinct. apply Hdistinct.
Qed.

Lemma totalItems_of_new_lines adds : forall acc,
  reduce (fun sum item => (sum + quantity item)%float) acc
    (List.map (fun add => new_line (fst add) (snd add)) adds)
  = sum_from acc (List.map snd adds).
Proof.
  unfold reduce.
  induction adds as [|add adds IH]; intros acc; [reflexivity|].
  cbn [List.map fold_left sum_from]. apply IH.
Qed.

(** X3.  A run of [addItem] calls with pairwise distinct product ids on
    the empty cart builds one line per call, in call order, each with the
    fields and quantity of its call; so the number of lines is the number
    of calls and the item count is the sum of the quantities supplied. *)
Theorem add_all_distinct_products :
  forall adds,
    distinct_ids (List.map (fun add => Product.productId (fst add)) adds) ->
    add_all adds []
    = List.map (fun add => new_line (fst add) (snd add)) adds /\
    length (add_all adds []) = length adds /\
    totalItems (add_all adds []) = sum_numbers (List.map snd adds).
Proof.
  intros adds Hdistinct.
  assert (Hcart : add_all adds []
                  = List.map (fun add => new_line (fst add) (snd add)) adds).
  { now rewrite (add_all_appends adds [] (fun _ _ => eq_refl) Hdistinct). }
  rewrite Hcart. split; [reflexivity|].
  split; [apply length_map|].
  unfold totalItems, sum_numbers. apply totalItems_of_new_lines.
Qed.

(** The two products of the test "should clear entire cart". *)
Lemma add_all_of_two_products :
  let product1 := Product.mk 1%float "Product 1"%string 50%float None None in
  let product2 := Product.mk 2%float "Product 2"%string 30%float None None in
  let adds := [(product1, 2%float); (product2, 1%float)] in
  distinct_ids [1%float; 2%float] /\
  length (add_all adds []) = 2 /\
  totalItems (add_all adds []) = 3%float.
Proof.
  cbv zeta.
  assert (Hdistinct : distinct_ids [1%float; 2%float]).
  { split; [|split; [|exact I]].
    - intros other [<-|[]]. reflexivity.
    - intros other []. }
  destruct (add_all_distinct_products
              [(Product.mk 1%float "Product 1"%string 50%float None None,
                2%float);
               (Product.mk 2%float "Product 2"%string 30%float None None,
                1%float)] Hdistinct)
    as (_ & Hlen & Htotal).
  refine (conj Hdistinct (conj Hlen _)).
  rewrite Htotal. reflexivity.
Defined.

(** * How the updaters compose *)

Lemma removeItem_app pid xs ys :
  removeItem pid (xs ++ ys) = removeItem pid xs ++ removeItem pid ys.
Proof. unfold removeItem. apply List.filter_app. Qed.

Lemma strict_ne_same_product pid item :
  strict_ne (productId item) pid = negb (same_product pid item).
Proof. reflexivity. Qed.

(** Removing a key after touching quantities of a key. *)
Lemma removeItem_map_requantify pid pid' f items :
  removeItem pid (List.map (requantify pid' f) items)
  = List.map (requantify pid' f) (removeItem pid items).
Proof.
  unfold removeItem.
  induction items as [|item items IH]; [reflexivity|].
  cbn [List.map List.filter].
  rewrite !strict_ne_same_product, same_product_requantify, IH.
  now destruct (same_product pid item).
Qed.

Lemma removeItem_requantified pid f items :
  removeItem pid (List.map (requantify pid f) items) = removeItem pid items.
Proof.
  rewrite removeItem_map_requantify.
  apply map_requantify_absent, count_product_removeItem.
Qed.

Lemma requantify_twice pid f q item :
  requantify pid (fun _ => q) (requantify pid f item)
  = requantify pid (fun _ => q) item.
Proof.
  unfold requantify at 2. destruct (same_product pid item) eqn:E.
  - unfold requantify. unfold same_product in *. cbn [productId with_quantity].
    now rewrite E.
  - reflexivity.
Qed.

(** X4.  Removing a product right after adding it gives the cart the
    removal alone would give, whatever was added; when the product was
    not in the cart before, the cart is back as it was.  The id has to be
    a number: a NaN id matches no line, so its line cannot be removed. *)
Theorem removeItem_undoes_addItem :
  forall items product qty,
    strict_eq (Product.productId product) (Product.productId product) = true ->
    removeItem (Product.productId product) (addItem product qty items)
    = removeItem (Product.productId product) items /\
    (count_product (Product.productId product) items = 0 ->
     removeItem (Product.productId product) (addItem product qty items)
     = items).
Proof.
  intros items product qty Hnum.
  assert (Heq : removeItem (Product.productId product)
                  (addItem product qty items)
                = removeItem (Product.productId product) items).
  { destruct (List.find (same_product (Product.productId product)) items)
      as [existing|] eqn:Hfind.
    - rewrite (addItem_existing _ qty _ _ Hfind).
      apply removeItem_requantified.
    - rewrite (addItem_fresh _ qty _ Hfind), removeItem_app.
      unfold removeItem at 2. cbn [List.filter productId].
      unfold strict_ne. rewrite Hnum. cbn [negb]. apply app_nil_r. }
  split; [exact Heq|].
  intros Habsent. rewrite Heq. now apply removeItem_absent.
Qed.

(** The test "should remove item from cart". *)
Lemma removeItem_after_addItem_in_the_test :
  let product := Product.mk 1%float "Test Product"%string 50%float None None in
  removeItem 1%float (addItem product 2%float []) = [].
Proof.
  cbv zeta.
  exact (proj2 (removeItem_undoes_addItem []
                  (Product.mk 1%float "Test Product"%string 50%float None None)
                  2%float eq_refl) eq_refl).
Defined.

(** X5.  Of two [updateQuantity] calls for one product the last one
    decides: after a positive quantity the second call gives what it
    would give on the original cart, and after a removal ([<= 0]) the
    second call finds nothing to update and creates no line. *)
Theorem updateQuantity_last_call_wins :
  forall items pid q1 q2,
    (greater_than q1 0%float = true ->
     updateQuantity pid q2 (updateQuantity pid q1 items)
     = updateQuantity pid q2 items) /\
    (less_eq q1 0%float = true ->
     updateQuantity pid q2 (updateQuantity pid q1 items)
     = removeItem pid items).
Proof.
  intros items pid q1 q2. split.
  - intros Hpos. rewrite (updateQuantity_positive _ _ _ Hpos).
    unfold updateQuantity. destruct (less_eq q2 0%float).
    + apply removeItem_requantified.
    + rewrite List.map_map. apply List.map_ext. intros item.
      apply (requantify_twice pid (fun _ => q1) q2).
  - intros Hle. unfold updateQuantity at 2. rewrite Hle.
    unfold updateQuantity. destruct (less_eq q2 0%float).
    + apply removeItem_absent, count_product_removeItem.
    + apply (map_requantify_absent pid (fun _ => q2)),
        count_product_removeItem.
Qed.

(** Quantity 5 then 3, and quantity 0 then 3, on the cart of the tests. *)
Lemma updateQuantity_twice_on_the_sample :
  updateQuantity 1%float 3%float (updateQuantity 1%float 5%float [sample_item])
  = [with_quantity sample_item 3%float] /\
  updateQuantity 1%float 3%float (updateQuantity 1%float 0%float [sample_item])
  = [].
Proof.
  destruct (updateQuantity_last_call_wins [sample_item] 1%float 5%float 3%float)
    as [Hpos _].
  destruct (updateQuantity_last_call_wins [sample_item] 1%float 0%float 3%float)
    as [_ Hzero].
  split.
  - rewrite (Hpos eq_refl). reflexivity.
  - rewrite (Hzero eq_refl). reflexivity.
Defined.

(** X7.  After [updateQuantity] no line with the key is left with a
    quantity [<= 0]: every such line holds exactly the requested
    quantity, and lines are only kept when that quantity is not [<= 0]. *)
Theorem updateQuantity_leaves_no_empty_line :
  forall items pid qty item,
    In item (updateQuantity pid qty items) ->
    same_product pid item = true ->
    quantity item = qty /\ less_eq (quantity item) 0%float = false.
Proof.
  intros items pid qty item Hin Hsame. unfold updateQuantity in Hin.
  destruct (less_eq qty 0%float) eqn:Hle.
  - pose proof (count_product_removeItem pid items) as Hnone.
    rewrite count_product_zero in Hnone.
    rewrite (Hnone item Hin) in Hsame. discriminate.
  - apply List.in_map_iff in Hin. destruct Hin as (old & <- & _).
    change (same_product pid (requantify pid (fun _ => qty) old) = true)
      in Hsame.
    rewrite same_product_requantify in Hsame.
    rewrite Hsame. cbn [quantity with_quantity].
    now split.
Qed.

(** The test "should update item quantity". *)
Lemma updateQuantity_line_in_the_test :
  let line := with_quantity sample_item 5%float in
  In line (updateQuantity 1%float 5%float [sample_item]) /\
  quantity line = 5%float /\ less_eq (quantity line) 0%float = false.
Proof.
  cbv zeta.
  assert (Hin : In (with_quantity sample_item 5%float)
                  (updateQuantity 1%float 5%float [sample_item]))
    by (left; reflexivity).
  exact (conj Hin (updateQuantity_leaves_no_empty_line _ _ _ _ Hin eq_refl)).
Defined.

(** * Actions on different products *)

Lemma removeItem_comm a b items :
  removeItem a (removeItem b items) = removeItem b (removeItem a items).
Proof.
  unfold removeItem.
  induction items as [|item items IH]; [reflexivity|].
  cbn [List.filter].
  destruct (strict_ne (productId item) b) eqn:Eb;
    destruct (strict_ne (productId item) a) eqn:Ea;
    cbn [List.filter]; rewrite ?Ea, ?Eb, IH; reflexivity.
Qed.

(** No line carries two keys that are not [===]. *)
Lemma same_product_exclusive a b item :
  strict_eq a b = false ->
  same_product a item = true -> same_product b item = false.
Proof.
  unfold same_product. intros Hab Ha.
  destruct (strict_eq (productId item) b) eqn:Hb; [|reflexivity].
  rewrite strict_eq_sym in Ha.
  rewrite (strict_eq_trans _ _ _ Ha Hb) in Hab. discriminate.
Qed.

Lemma requantify_comm a b f g item :
  strict_eq a b = false ->
  requantify a f (requantify b g item) = requantify b g (requantify a f item).
Proof.
  intros Hab.
  destruct (same_product a item) eqn:Ha.
  - pose proof (same_product_exclusive _ _ _ Hab Ha) as Hb.
    rewrite (requantify_other b g item Hb).
    apply eq_sym, requantify_other.
    now rewrite same_product_requantify.
  - rewrite (requantify_other a f item Ha).
    apply requantify_other. now rewrite same_product_requantify.
Qed.

Lemma count_product_removeItem_other a b items :
  strict_eq a b = false ->
  count_product a (removeItem b items) = count_product a items.
Proof.
  intros Hab. unfold count_product, removeItem.
  induction items as [|item items IH]; [reflexivity|].
  cbn [List.filter]. rewrite strict_ne_same_product.
  destruct (same_product b item) eqn:Hb; cbn [negb List.filter].
  - assert (Hba : strict_eq b a = false) by now rewrite strict_eq_sym.
    now rewrite (same_product_exclusive _ _ _ Hba Hb).
  - destruct (same_product a item); cbn [length]; now rewrite IH.
Qed.

Lemma updater_is_edit action pid :
  action_key action = Some pid -> is_add action = false ->
  is_edit pid (updater_of action).
Proof.
  destruct action as [product qty|key|key qty|]; cbn; try discriminate.
  - intros [= ->] _. now left.
  - intros [= ->] _. unfold updateQuantity.
    destruct (less_eq qty 0%float); [now left|].
    right. now exists (fun _ => qty).
Qed.

Lemma edits_commute a b u v items :
  is_edit a u -> is_edit b v -> strict_eq a b = false ->
  u (v items) = v (u items).
Proof.
  intros [Hu|[f Hu]] [Hv|[g Hv]] Hab; rewrite !Hu, !Hv.
  - apply removeItem_comm.
  - apply removeItem_map_requantify.
  - apply eq_sym, removeItem_map_requantify.
  - rewrite !List.map_map. apply List.map_ext. intros item.
    now apply requantify_comm.
Qed.

Lemma addItem_edit_commute product qty b v items :
  is_edit b v -> strict_eq (Product.productId product) b = false ->
  addItem product qty (v items) = v (addItem product qty items).
Proof.
  intros Hv Hab.
  assert (Hcount : count_product (Product.productId product) (v items) = count_product (Product.productId product) items).
  { destruct Hv as [Hv|[g Hv]]; rewrite Hv.
    - now apply count_product_removeItem_other.
    - apply count_product_requantify. }
  assert (Hnew : same_product b (new_line product qty) = false).
  { unfold same_product. cbn [productId new_line]. exact Hab. }
  destruct (List.find (same_product (Product.productId product)) items) as [existing|] eqn:Hfind.
  - destruct (List.find (same_product (Product.productId product)) (v items)) as [x|] eqn:Hfind'.
    + rewrite (addItem_existing _ qty _ _ Hfind).
      rewrite (addItem_existing _ qty _ _ Hfind').
      destruct Hv as [Hv|[g Hv]]; rewrite !Hv.
      * apply eq_sym, removeItem_map_requantify.
      * rewrite !List.map_map. apply List.map_ext. intros item.
        now apply requantify_comm.
    + apply find_none_count in Hfind'. rewrite Hcount in Hfind'.
      apply find_none_count in Hfind'. congruence.
  - apply find_none_count in Hfind as Hzero.
    rewrite (addItem_new_line _ qty items Hzero).
    rewrite (addItem_new_line _ qty (v items)); [|now rewrite Hcount].
    destruct Hv as [Hv|[g Hv]]; rewrite !Hv.
    + rewrite removeItem_app. f_equal.
      unfold removeItem. cbn [List.filter].
      rewrite strict_ne_same_product, Hnew. reflexivity.
    + rewrite List.map_app. f_equal. cbn [List.map].
      now rewrite (requantify_other _ _ _ Hnew).
Qed.

(** X6.  Two actions about products whose ids are not [===] can be done
    in either order with the same resulting cart, unless both are
    [addItem] (two new lines are appended in call order). *)
Theorem actions_on_different_products_commute :
  forall action1 action2 pid1 pid2 items,
    action_key action1 = Some pid1 ->
    action_key action2 = Some pid2 ->
    strict_eq pid1 pid2 = false ->
    is_add action1 && is_add action2 = false ->
    updater_of action1 (updater_of action2 items)
    = updater_of action2 (updater_of action1 items).
Proof.
  intros action1 action2 pid1 pid2 items Hk1 Hk2 Hne Hadds.
  assert (Hne' : strict_eq pid2 pid1 = false) by now rewrite strict_eq_sym.
  destruct (is_add action1) eqn:Hadd1; destruct (is_add action2) eqn:Hadd2;
    try discriminate.
  - destruct action1 as [product qty| | |]; try discriminate.
    cbn in Hk1. injection Hk1 as <-.
    apply addItem_edit_commute with (b := pid2); [|exact Hne].
    now apply updater_is_edit.
  - destruct action2 as [product qty| | |]; try discriminate.
    cbn in Hk2. injection Hk2 as <-.
    apply eq_sym, addItem_edit_commute with (b := pid1); [|exact Hne'].
    now apply updater_is_edit.
  - apply edits_commute with (a := pid1) (b := pid2);
      [now apply updater_is_edit | now apply updater_is_edit | exact Hne].
Qed.

(** Product 1 is added while the quantity of product 2 is set: both
    orders give the same two lines. *)
Lemma add_and_update_in_either_order :
  let second := mkCartItem 2%float "Product 2"%string 30%float 1%float None None in
  let product1 := Product.mk 1%float "Product 1"%string 50%float None None in
  let add := AddItem product1 2%float in
  let set := UpdateQuantity 2%float 4%float in
  updater_of add (updater_of set [second])
  = updater_of set (updater_of add [second]) /\
  updater_of add (updater_of set [second])
  = [with_quantity second 4%float; new_line product1 2%float].
Proof.
  cbv zeta. split; [|reflexivity].
  apply (actions_on_different_products_commute
           (AddItem (Product.mk 1%float "Product 1"%string 50%float None None)
              2%float)
           (UpdateQuantity 2%float 4%float) 1%float 2%float);
    reflexivity.
Defined.

(** * The provider and its store *)

Section CartProviderRunsFacts.

Variable JSON_parse : string -> ParseResult.
Variable JSON_stringify : list CartItem -> string.

Lemma load_effect_other_keys store key :
  key <> CART_KEY ->
  fx_storage (load_effect JSON_parse store) !! key = store !! key.
Proof.
  intros Hkey. unfold load_effect.
  destruct (localStorage.getItem CART_KEY store) as [savedCart|];
    [|reflexivity].
  destruct (string_to_boolean savedCart); [|reflexivity].
  destruct (JSON_parse savedCart); cbn [fx_storage]; try reflexivity.
  unfold localStorage.removeItem. now apply lookup_delete_ne.
Qed.

Lemma save_effect_other_keys items store key :
  key <> CART_KEY ->
  save_effect JSON_stringify items store !! key = store !! key.
Proof.
  intros Hkey. unfold save_effect, localStorage.setItem.
  now apply lookup_insert_ne.
Qed.

Lemma mount_storage store :
  localStorage.getItem CART_KEY (storage (mount JSON_parse JSON_stringify store))
  = Some (JSON_stringify (mirrored (mount JSON_parse JSON_stringify store)))
  /\ forall key,
       key <> CART_KEY ->
       storage (mount JSON_parse JSON_stringify store) !! key = store !! key.
Proof.
  unfold mount, mirrored.
  destruct (fx_setItems (load_effect JSON_parse store)) as [[items|v]|];
    cbn [state storage]; (split; [apply save_effect_lookup|]);
    intros key Hkey;
    rewrite ?(save_effect_other_keys _ _ _ Hkey);
    now apply load_effect_other_keys.
Qed.

Lemma runs_storage store p :
  Runs JSON_parse JSON_stringify store p ->
  localStorage.getItem CART_KEY (storage p) = Some (JSON_stringify (mirrored p))
  /\ forall key, key <> CART_KEY -> storage p !! key = store !! key.
Proof.
  induction 1 as [|action p p' _ [_ IHother] Hstep].
  - apply mount_storage.
  - unfold dispatch in Hstep.
    destruct (state p) as [items|v]; [|discriminate].
    injection Hstep as <-. unfold mirrored. cbn [state storage]. split.
    + apply save_effect_lookup.
    + intros key Hkey. rewrite (save_effect_other_keys _ _ _ Hkey).
      now apply IHother.
Qed.

(** X8.  Whatever was loaded and whatever handlers were called since, the
    persisted entry is the serialization of the cart the provider holds,
    and no other key of the store has been written or removed. *)
Theorem persisted_entry_mirrors_the_cart :
  forall store p,
    Runs JSON_parse JSON_stringify store p ->
    (forall items,
        state p = Items items ->
        localStorage.getItem CART_KEY (storage p)
        = Some (JSON_stringify items)) /\
    (forall key, key <> CART_KEY -> storage p !! key = store !! key).
Proof.
  intros store p Hruns.
  destruct (runs_storage store p Hruns) as [Hentry Hother].
  split; [|exact Hother].
  intros items Hstate. rewrite Hentry. unfold mirrored. now rewrite Hstate.
Qed.

(** X9.  Loading the page again at any moment restores the cart the
    provider holds, provided the platform's codec gives that cart back
    unchanged. *)
Theorem reload_restores_the_cart :
  forall store p items,
    Runs JSON_parse JSON_stringify store p ->
    state p = Items items ->
    JSON_round_trips JSON_parse JSON_stringify items ->
    state (mount JSON_parse JSON_stringify (storage p)) = Items items /\
    console (mount JSON_parse JSON_stringify (storage p)) = [].
Proof.
  intros store p items Hruns Hstate [Hparse Htruthy].
  destruct (runs_storage store p Hruns) as [Hentry _].
  unfold mirrored in Hentry. rewrite Hstate in Hentry.
  assert (Hload : load_effect JSON_parse (storage p)
                  = mkEffect (storage p) (Some (Items items)) []).
  { unfold load_effect. now rewrite Hentry, Htruthy, Hparse. }
  unfold mount. rewrite Hload. split; reflexivity.
Qed.

(** X10.  A load that failed does so once.  When the load effect did not
    restore a cart (the text could not be parsed, or parsed to something
    that is not an array), the store is left holding the empty cart, and
    the next page load starts with an empty cart and logs nothing. *)
Theorem failed_load_heals :
  forall store,
    (forall items,
        fx_setItems (load_effect JSON_parse store) <> Some (Items items)) ->
    JSON_round_trips JSON_parse JSON_stringify [] ->
    let again :=
      mount JSON_parse JSON_stringify
        (storage (mount JSON_parse JSON_stringify store)) in
    state again = Items [] /\
    console again = [] /\
    render (state again)
    = Rendered (mkContext [] 0%float 0%float 25%float 25%float).
Proof.
  intros store Hfailed [Hparse Htruthy]. cbv zeta.
  destruct (mount_storage store) as [Hentry _].
  assert (Hempty : mirrored (mount JSON_parse JSON_stringify store) = []).
  { unfold mirrored. rewrite mount_state.
    destruct (fx_setItems (load_effect JSON_parse store)) as [[items|v]|];
      try reflexivity.
    now destruct (Hfailed items). }
  rewrite Hempty in Hentry.
  assert (Hload :
    load_effect JSON_parse (storage (mount JSON_parse JSON_stringify store))
    = mkEffect (storage (mount JSON_parse JSON_stringify store))
        (Some (Items [])) []).
  { unfold load_effect. now rewrite Hentry, Htruthy, Hparse. }
  unfold mount at 1 3 5. rewrite Hload. repeat split.
Qed.

End CartProviderRunsFacts.

(** A store that holds another key and no cart; product 1 is added. *)
Lemma persisted_entry_after_an_add :
  let store : gmap string string := {[ "theme"%string := "dark"%string ]} in
  let p0 := mount JSON_parse_samples JSON_stringify_samples store in
  let p1 :=
    {| state := Items [sample_item];
       storage := save_effect JSON_stringify_samples [sample_item] (storage p0);
       console := console p0 |} in
  Runs JSON_parse_samples JSON_stringify_samples store p1 /\
  localStorage.getItem CART_KEY (storage p1) = Some sample_cart_text /\
  storage p1 !! "theme"%string = Some "dark"%string.
Proof.
  cbv zeta.
  set (store := ({[ "theme"%string := "dark"%string ]} : gmap string string)).
  set (p0 := mount JSON_parse_samples JSON_stringify_samples store).
  set (p1 := {| state := Items [sample_item];
                storage := save_effect JSON_stringify_samples [sample_item]
                             (storage p0);
                console := console p0 |}).
  assert (Hruns : Runs JSON_parse_samples JSON_stringify_samples store p1).
  { apply (run_dispatch _ _ store
             (AddItem (Product.mk 1%float "Test Product"%string 50%float
                         None None) 2%float) p0 p1).
    - apply run_mount.
    - reflexivity. }
  destruct (persisted_entry_mirrors_the_cart JSON_parse_samples
              JSON_stringify_samples store p1 Hruns) as [Hentry Hother].
  split; [exact Hruns|]. split.
  - exact (Hentry [sample_item] eq_refl).
  - rewrite (Hother "theme"%string); [reflexivity | discriminate].
Defined.

(** The same provider, and a page load on the store it leaves. *)
Lemma reload_after_an_add :
  let p0 := mount JSON_parse_samples JSON_stringify_samples empty in
  let p1 :=
    {| state := Items [sample_item];
       storage := save_effect JSON_stringify_samples [sample_item] (storage p0);
       console := console p0 |} in
  Runs JSON_parse_samples JSON_stringify_samples empty p1 /\
  JSON_round_trips JSON_parse_samples JSON_stringify_samples [sample_item] /\
  state (mount JSON_parse_samples JSON_stringify_samples (storage p1))
  = Items [sample_item].
Proof.
  cbv zeta.
  set (p0 := mount JSON_parse_samples JSON_stringify_samples empty).
  set (p1 := {| state := Items [sample_item];
                storage := save_effect JSON_stringify_samples [sample_item]
                             (storage p0);
                console := console p0 |}).
  assert (Hruns : Runs JSON_parse_samples JSON_stringify_samples empty p1).
  { apply (run_dispatch _ _ empty
             (AddItem (Product.mk 1%float "Test Product"%string 50%float
                         None None) 2%float) p0 p1).
    - apply run_mount.
    - reflexivity. }
  assert (Hrt : JSON_round_trips JSON_parse_samples JSON_stringify_samples
                  [sample_item]) by (split; reflexivity).
  destruct (reload_restores_the_cart JSON_parse_samples JSON_stringify_samples
              empty p1 [sample_item] Hruns eq_refl Hrt) as [Hstate _].
  exact (conj Hruns (conj Hrt Hstate)).
Defined.

(** The text of a JSON object as the persisted cart: the first load
    adopts it (and its render throws), the second starts empty. *)
Lemma object_snapshot_heals :
  let store : gmap string string := {[ CART_KEY := "{}"%string ]} in
  let first := mount JSON_parse_samples JSON_stringify_samples store in
  let again := mount JSON_parse_samples JSON_stringify_samples (storage first) in
  state first = NotAnArray JObject /\
  JSON_round_trips JSON_parse_samples JSON_stringify_samples [] /\
  state again = Items [] /\ console again = [].
Proof.
  cbv zeta.
  assert (Hfailed : forall items,
    fx_setItems (load_effect JSON_parse_samples
                   ({[ CART_KEY := "{}"%string ]} : gmap string string))
    <> Some (Items items)).
  { intros items.
    replace (load_effect JSON_parse_samples
               ({[ CART_KEY := "{}"%string ]} : gmap string string))
      with (mkEffect ({[ CART_KEY := "{}"%string ]} : gmap string string)
              (Some (NotAnArray JObject)) [])
      by reflexivity.
    discriminate. }
  assert (Hrt : JSON_round_trips JSON_parse_samples JSON_stringify_samples [])
    by (split; reflexivity).
  destruct (failed_load_heals JSON_parse_samples JSON_stringify_samples
              _ Hfailed Hrt) as (Hstate & Hconsole & _).
  refine (conj _ (conj Hrt (conj Hstate Hconsole))).
  reflexivity.
Defined.

(** * The cart page *)

Lemma line_total_cart_line item :
  line_total (cart_line item) = (itemPrice item * quantity item)%float.
Proof. reflexivity. Qed.

Lemma subtotal_from_lines items : forall acc,
  fold_left (fun sum item => (sum + itemPrice item * quantity item)%float)
    items acc
  = sum_from acc (List.map line_total (List.map cart_line items)).
Proof.
  induction items as [|item items IH]; intros acc; [reflexivity|].
  cbn [fold_left List.map sum_from]. rewrite line_total_cart_line. apply IH.
Qed.

Lemma cart_page_listing items lines st label banner tot :
  cart_page items = CartListing lines st label banner tot ->
  items <> [] /\
  lines = List.map cart_line items /\
  st = subtotal items /\
  label = (if strict_eq (shipping items) 0%float then FreeShipping
           else ShippingCost (shipping items)) /\
  banner = (strict_eq (shipping items) 0%float
            && greater_eq (subtotal items) 100%float) /\
  tot = total items.
Proof.
  unfold cart_page. destruct items as [|item items]; [discriminate|].
  cbn [length Nat.eqb]. intros [= <- <- <- <- <-].
  repeat split. discriminate.
Qed.

(** X11.  On the cart page the subtotal of the order summary is the sum,
    from the top, of the line totals the page shows (each computed by the
    page itself from price, discount and quantity), there is one line per
    cart item, and the empty-cart view is shown exactly for the empty
    cart. *)
Theorem cart_page_lines_add_up :
  forall items,
    (cart_page items = EmptyCartPage <-> items = []) /\
    (forall lines st label banner tot,
        cart_page items = CartListing lines st label banner tot ->
        length lines = length items /\
        List.map line_key lines = List.map productId items /\
        st = sum_numbers (List.map line_total lines)).
Proof.
  intros items. split.
  - unfold cart_page. destruct items; cbn; split; easy.
  - intros lines st label banner tot Hpage.
    apply cart_page_listing in Hpage.
    destruct Hpage as (_ & -> & -> & _).
    split; [apply length_map|]. split.
    + rewrite List.map_map. reflexivity.
    + unfold subtotal, reduce, sum_numbers. apply subtotal_from_lines.
Qed.

(** The cart of the test "should display correct order summary
    calculations": 2 at 50 and 1 at 30. *)
Lemma cart_page_of_two_lines :
  let cart := [mkCartItem 1%float "Product 1"%string 50%float 2%float None None;
               mkCartItem 2%float "Product 2"%string 30%float 1%float None None] in
  let lines := List.map cart_line cart in
  cart_page cart = CartListing lines 130%float FreeShipping true 130%float /\
  List.map line_total lines = [100%float; 30%float] /\
  130%float = sum_numbers (List.map line_total lines).
Proof.
  cbv zeta.
  set (cart := [mkCartItem 1%float "Product 1"%string 50%float 2%float
                  None None;
                mkCartItem 2%float "Product 2"%string 30%float 1%float
                  None None]).
  assert (Hpage : cart_page cart
                  = CartListing (List.map cart_line cart) 130%float
                      FreeShipping true 130%float) by reflexivity.
  destruct (proj2 (cart_page_lines_add_up cart) _ _ _ _ _ Hpage)
    as (_ & _ & Hsum).
  exact (conj Hpage (conj eq_refl Hsum)).
Defined.

(** X12.  The order summary is consistent about shipping: the label is
    FREE exactly when the free-shipping banner is shown and exactly when
    the subtotal is at least 100, in which case the total shown is the
    subtotal; otherwise the label is the fee of 25 and the total is the
    subtotal plus 25. *)
Theorem cart_page_shipping_is_consistent :
  forall items lines st label banner tot,
    cart_page items = CartListing lines st label banner tot ->
    (label = FreeShipping <-> banner = true) /\
    (label = FreeShipping <-> greater_eq st 100%float = true) /\
    (label = FreeShipping -> tot = st) /\
    (label <> FreeShipping ->
     label = ShippingCost 25%float /\ tot = (st + 25)%float).
Proof.
  intros items lines st label banner tot Hpage.
  apply cart_page_listing in Hpage.
  destruct Hpage as (_ & _ & -> & -> & -> & ->).
  unfold total.
  destruct (shipping_cases items) as [[Hge Hship]|[Hlt Hship]];
    rewrite Hship.
  - rewrite Hge.
    change (strict_eq 0%float 0%float) with true. cbn [andb].
    repeat split; try easy.
    intros _. now apply add_zero_r, at_least_100_is_not_zero.
  - rewrite Hlt.
    change (strict_eq 25%float 0%float) with false. cbn [andb].
    repeat split; try easy.
Qed.

(** The cart of the test "should show free shipping message for orders
    over $100", one line of 150, and the cart of one line of 50. *)
Lemma cart_page_shipping_in_the_tests :
  let expensive :=
    [mkCartItem 1%float "Expensive Product"%string 150%float 1%float None None] in
  cart_page expensive
  = CartListing (List.map cart_line expensive) 150%float FreeShipping true
      150%float /\
  (FreeShipping = FreeShipping <-> true = true) /\
  (FreeShipping = FreeShipping <-> greater_eq 150%float 100%float = true).
Proof.
  cbv zeta.
  set (expensive := [mkCartItem 1%float "Expensive Product"%string 150%float
                       1%float None None]).
  assert (Hpage : cart_page expensive
                  = CartListing (List.map cart_line expensive) 150%float
                      FreeShipping true 150%float) by reflexivity.
  destruct (cart_page_shipping_is_consistent expensive _ _ _ _ _ Hpage)
    as (Hbanner & Hlabel & _).
  exact (conj Hpage (conj Hbanner Hlabel)).
Defined.

(** X13.  The decrease button of a line hands [quantity - 1] to
    [updateQuantity]: when that is [<= 0] (a line of quantity 1) the
    click removes every line with the key instead of storing a quantity
    of 0, and when those were all the lines the page turns into the
    empty-cart view.  The remove button does the same at any quantity. *)
Theorem decrease_to_zero_removes_the_line :
  forall items item,
    less_eq (quantity item - 1)%float 0%float = true ->
    updater_of (decrease_clicked item) items
    = updater_of (remove_clicked item) items /\
    count_product (productId item)
      (updater_of (decrease_clicked item) items) = 0 /\
    ((forall other, In other items ->
                    same_product (productId item) other = true) ->
     cart_page (updater_of (decrease_clicked item) items) = EmptyCartPage).
Proof.
  intros items item Hle. cbn [updater_of decrease_clicked remove_clicked].
  unfold updateQuantity. rewrite Hle.
  split; [reflexivity|]. split; [apply count_product_removeItem|].
  intros Hall.
  assert (Hnil : removeItem (productId item) items = []).
  { unfold removeItem. induction items as [|other items IH]; [reflexivity|].
    cbn [List.filter]. rewrite strict_ne_same_product.
    rewrite (Hall other (or_introl eq_refl)). cbn [negb].
    apply IH. intros x Hx. apply Hall. now right. }
  now rewrite Hnil.
Qed.

(** A cart of one line of quantity 1: the decrease button empties it. *)
Lemma decrease_on_a_single_unit :
  let item := mkCartItem 1%float "Test Product"%string 50%float 1%float
                None None in
  less_eq (quantity item - 1)%float 0%float = true /\
  updater_of (decrease_clicked item) [item] = [] /\
  cart_page (updater_of (decrease_clicked item) [item]) = EmptyCartPage.
Proof.
  cbv zeta.
  set (item := mkCartItem 1%float "Test Product"%string 50%float 1%float
                 None None).
  assert (Hle : less_eq (quantity item - 1)%float 0%float = true)
    by reflexivity.
  destruct (decrease_to_zero_removes_the_line [item] item Hle)
    as (_ & _ & Hpage).
  refine (conj Hle (conj eq_refl (Hpage _))).
  intros other [<-|[]]. reflexivity.
Defined.
